(** * skiboot hw/lpc-mbox.c: the host side of the BMC mailbox

    A shallow embedding of the LPC mailbox driver (hw/lpc-mbox.c) and the
    properties of its protocol engine: the single in-flight slot, the
    completion detector [mbox_poll], the polling-to-interrupt mode switch
    and the one-shot initialisation.

    The driver keeps one static [struct mbox]; here it is a record that is
    threaded through every operation.  Every operation also produces the
    list of externally visible events it performed (port reads and writes,
    log lines, lock operations, the upcall, timer requests), so that
    statements such as "performs no register write" can be made. *)

From Stdlib Require Import ZArith List Bool String Lia.
Import ListNotations.
Local Open Scope Z_scope.

(** ** Constants of the headers the driver includes

    What the driver takes from lpc-mbox.h, opal-api.h, timer.h,
    timebase.h and lpc.h is a parameter of the development: the results
    hold for every value of these constants, up to the side conditions
    stated where they matter. *)
Class Platform := {
  BMC_MBOX_DATA_REGS : Z;       (* lpc-mbox.h *)
  MBOX_DEFAULT_POLL_MS : Z;     (* lpc-mbox.h *)
  TIMER_POLL : Z;               (* timer.h *)
  msecs_to_tb : Z -> Z;         (* timebase.h *)
  OPAL_WRONG_STATE : Z;         (* opal-api.h *)
  OPAL_BUSY : Z;                (* opal-api.h *)
  OPAL_LPC_IO : Z;              (* opal-api.h *)
  LPC_IRQ : Z -> Z;             (* lpc.h *)
}.

(** ** Register map (the #defines of lpc-mbox.c) *)
Definition MBOX_FLAG_REG : Z := 0x0f.
Definition MBOX_STATUS_0 : Z := 0x10.
Definition MBOX_STATUS_ATTN : Z := Z.shiftl 1 7.
Definition MBOX_STATUS_1 : Z := 0x11.
Definition MBOX_BMC_CTRL : Z := 0x12.
Definition MBOX_CTRL_INT_STATUS : Z := Z.shiftl 1 7.
Definition MBOX_CTRL_INT_MASK : Z := Z.shiftl 1 1.
Definition MBOX_CTRL_INT_SEND : Z := Z.shiftl 1 0.
Definition MBOX_HOST_CTRL : Z := 0x13.
Definition MBOX_BMC_INT_EN_0 : Z := 0x14.
Definition MBOX_BMC_INT_EN_1 : Z := 0x15.
Definition MBOX_HOST_INT_EN_0 : Z := 0x16.
Definition MBOX_HOST_INT_EN_1 : Z := 0x17.

Definition MBOX_MAX_QUEUE_LEN : Z := 5.

Definition BMC_RESET : Z := 1.
Definition BMC_COMPLETE : Z := 2.

(** Integer conversions of C, written out. *)
Definition u8 (v : Z) : Z := v mod 2 ^ 8.
Definition u32 (v : Z) : Z := v mod 2 ^ 32.

(** The null pointer; pointers are addresses. *)
Definition NULL : Z := 0.

(** ** The LPC bus and the mailbox register block *)

(** Number of byte registers of the mailbox block (0x00 .. 0x17). *)
Definition MBOX_IO_COUNT : Z := 0x18.

Record lpc_bus := {
  io_base : Z;        (* I/O address the mailbox block is decoded at *)
  io_regs : Z -> Z;   (* register offset -> byte it currently holds *)
  bus_ok : bool;      (* what lpc_ok() reports *)
  bus_present : bool  (* what lpc_present() reports *)
}.

Definition upd (f : Z -> Z) (k v : Z) : Z -> Z :=
  fun x => if x =? k then v else f x.

(** Modelled from the spec: the register semantics of the mailbox block
    (the hardware behind lpc_outb, which lives in hw/lpc.c).  The two
    status registers and the interrupt-status bit of the host control
    register are write-one-to-clear: writing a 1 clears the bit, writing a
    0 leaves it.  Every other bit is plain storage. *)
Definition reg_write (off old val : Z) : Z :=
  if (off =? MBOX_STATUS_0) || (off =? MBOX_STATUS_1) then
    Z.ldiff (u8 old) (u8 val)
  else if off =? MBOX_HOST_CTRL then
    Z.lor (Z.ldiff (Z.land (u8 old) MBOX_CTRL_INT_STATUS) (u8 val))
          (Z.ldiff (u8 val) MBOX_CTRL_INT_STATUS)
  else u8 val.

(** Modelled from the spec: lpc_inb of hw/lpc.c, reading a byte of I/O
    space.  Addresses outside the mailbox block read as 0xff. *)
Definition lpc_inb (d : lpc_bus) (addr : Z) : Z :=
  let off := u32 (addr - io_base d) in
  if off <? MBOX_IO_COUNT then u8 (io_regs d off) else 0xff.

(** Modelled from the spec: lpc_outb of hw/lpc.c, writing a byte of I/O
    space.  Writes outside the mailbox block are dropped. *)
Definition lpc_outb (d : lpc_bus) (val addr : Z) : lpc_bus :=
  let off := u32 (addr - io_base d) in
  if off <? MBOX_IO_COUNT then
    {| io_base := io_base d;
       io_regs := upd (io_regs d) off (reg_write off (io_regs d off) val);
       bus_ok := bus_ok d;
       bus_present := bus_present d |}
  else d.

(** ** Driver state *)

(** Modelled from the spec: [struct timer] of core/timer.c, as far as the
    driver sees it: whether a handler was installed by init_timer, and
    the delay of the pending one-shot request, if any. *)
Record timer := {
  t_target : bool;
  t_expiry : option Z
}.

(** [struct mbox].  The lock has no state of its own here: taking and
    releasing it are events. *)
Record mbox_t := {
  base : Z;
  queue_len : Z;
  irq_ok : bool;
  seq : Z;
  poller : timer;
  callback : Z;
  drv_data : Z;
  in_flight : Z
}.

(** The machine: the static [mbox], the [interrupts] field of the static
    [mbox_lpc_client], the bus, and byte-addressed memory (which holds the
    messages the callers own). *)
Record mstate := {
  mbox : mbox_t;
  client_interrupts : Z;
  lpc : lpc_bus;
  mem : Z -> Z
}.

Inductive loglevel := PR_CRIT | PR_ERR | PR_WARNING | PR_DEBUG | PR_INSANE.

Inductive event :=
| EvInb (addr val : Z)
| EvOutb (val addr : Z)
| EvLog (lvl : loglevel) (text : string) (args : list Z)
| EvLock
| EvUnlock
| EvCallback (fn msg priv : Z) (payload : list Z)
| EvInitTimer
| EvScheduleTimer (how_long : Z)
| EvRegisterClient (chip_id interrupts : Z).

(** ** A state monad that also collects events *)
Definition M (A : Type) : Type := mstate -> A * mstate * list event.

Definition ret {A} (a : A) : M A := fun s => (a, s, []).

Definition bind {A B} (m : M A) (k : A -> M B) : M B :=
  fun s =>
    let '(a, s1, t1) := m s in
    let '(b, s2, t2) := k a s1 in
    (b, s2, t1 ++ t2).

Declare Scope mbox_scope.
Delimit Scope mbox_scope with mbox.
Notation "x <- m ;; k" := (bind m (fun x => k))
  (at level 61, m at next level, right associativity) : mbox_scope.
Notation "m ;; k" := (bind m (fun _ => k))
  (at level 61, right associativity) : mbox_scope.
Local Open Scope mbox_scope.

Definition result {A} (r : A * mstate * list event) : A := fst (fst r).
Definition final {A} (r : A * mstate * list event) : mstate := snd (fst r).
Definition events {A} (r : A * mstate * list event) : list event := snd r.

Definition gets {A} (f : mbox_t -> A) : M A := fun s => (f (mbox s), s, []).
Definition emit (e : event) : M unit := fun s => (tt, s, [e]).

Definition with_mbox (f : mbox_t -> mbox_t) : M unit :=
  fun s => (tt, {| mbox := f (mbox s);
                   client_interrupts := client_interrupts s;
                   lpc := lpc s;
                   mem := mem s |}, []).

Definition set_base (v : Z) (m : mbox_t) : mbox_t :=
  {| base := v; queue_len := queue_len m; irq_ok := irq_ok m; seq := seq m;
     poller := poller m; callback := callback m; drv_data := drv_data m;
     in_flight := in_flight m |}.
Definition set_queue_len (v : Z) (m : mbox_t) : mbox_t :=
  {| base := base m; queue_len := v; irq_ok := irq_ok m; seq := seq m;
     poller := poller m; callback := callback m; drv_data := drv_data m;
     in_flight := in_flight m |}.
Definition set_irq_ok (v : bool) (m : mbox_t) : mbox_t :=
  {| base := base m; queue_len := queue_len m; irq_ok := v; seq := seq m;
     poller := poller m; callback := callback m; drv_data := drv_data m;
     in_flight := in_flight m |}.
Definition set_poller (v : timer) (m : mbox_t) : mbox_t :=
  {| base := base m; queue_len := queue_len m; irq_ok := irq_ok m; seq := seq m;
     poller := v; callback := callback m; drv_data := drv_data m;
     in_flight := in_flight m |}.
Definition set_callback (v : Z) (m : mbox_t) : mbox_t :=
  {| base := base m; queue_len := queue_len m; irq_ok := irq_ok m; seq := seq m;
     poller := poller m; callback := v; drv_data := drv_data m;
     in_flight := in_flight m |}.
Definition set_drv_data (v : Z) (m : mbox_t) : mbox_t :=
  {| base := base m; queue_len := queue_len m; irq_ok := irq_ok m; seq := seq m;
     poller := poller m; callback := callback m; drv_data := v;
     in_flight := in_flight m |}.
Definition set_in_flight (v : Z) (m : mbox_t) : mbox_t :=
  {| base := base m; queue_len := queue_len m; irq_ok := irq_ok m; seq := seq m;
     poller := poller m; callback := callback m; drv_data := drv_data m;
     in_flight := v |}.

(** External collaborators, as the driver calls them. *)
Definition prlog (lvl : loglevel) (text : string) (args : list Z) : M unit :=
  emit (EvLog lvl text args).
Definition lock : M unit := emit EvLock.
Definition unlock : M unit := emit EvUnlock.
Definition init_lock : M unit := ret tt.

Definition lpc_ok : M bool := fun s => (bus_ok (lpc s), s, []).
Definition lpc_present : M bool := fun s => (bus_present (lpc s), s, []).

Definition init_timer : M unit :=
  with_mbox (set_poller {| t_target := true; t_expiry := None |});;
  emit EvInitTimer.

Definition schedule_timer (how_long : Z) : M unit :=
  with_mbox (fun m => set_poller {| t_target := t_target (poller m);
                                    t_expiry := Some how_long |} m);;
  emit (EvScheduleTimer how_long).

(** A [uint8_t] load from and store to memory. *)
Definition load_u8 (addr : Z) : M Z := fun s => (u8 (mem s addr), s, []).
Definition store_u8 (addr val : Z) : M unit :=
  fun s => (tt, {| mbox := mbox s;
                   client_interrupts := client_interrupts s;
                   lpc := lpc s;
                   mem := upd (mem s) addr (u8 val) |}, []).

(** [for (i = from; i < from + n; i++) body(i)] *)
Fixpoint for_loop (n : nat) (i : Z) (body : Z -> M unit) : M unit :=
  match n with
  | O => ret tt
  | S n' => body i;; for_loop n' (i + 1) body
  end.

Section Driver.
Context {P : Platform}.

(** ** MBOX accesses *)

(** [static void bmc_mbox_outb(uint8_t val, uint8_t reg)] *)
Definition bmc_mbox_outb (val reg : Z) : M unit :=
  fun s =>
    let addr := u32 (base (mbox s) + u8 reg) in
    (tt, {| mbox := mbox s;
            client_interrupts := client_interrupts s;
            lpc := lpc_outb (lpc s) (u8 val) addr;
            mem := mem s |}, [EvOutb (u8 val) addr]).

(** [static uint8_t bmc_mbox_inb(uint8_t reg)] *)
Definition bmc_mbox_inb (reg : Z) : M Z :=
  fun s =>
    let addr := u32 (base (mbox s) + u8 reg) in
    let v := lpc_inb (lpc s) addr in
    (v, s, [EvInb addr v]).

(** [static void bmc_mbox_recv_message(struct bmc_mbox_msg *msg)] *)
Definition bmc_mbox_recv_message (msg : Z) : M unit :=
  for_loop (Z.to_nat BMC_MBOX_DATA_REGS) 0
    (fun i => v <- bmc_mbox_inb i;; store_u8 (msg + i) v).

(** [static void bmc_mbox_send_message(struct bmc_mbox_msg *msg)] *)
Definition bmc_mbox_send_message (msg : Z) : M unit :=
  ok <- lpc_ok;;
  (if negb ok then prlog PR_ERR "LPC isn't ok" [] else ret tt);;
  for_loop (Z.to_nat BMC_MBOX_DATA_REGS) 0
    (fun i => b <- load_u8 (msg + i);; bmc_mbox_outb b i);;
  prlog PR_DEBUG "Sending BMC interrupt" [];;
  bmc_mbox_outb MBOX_CTRL_INT_SEND MBOX_HOST_CTRL.

(** The cadence both [bmc_mbox_enqueue] and [mbox_poll] pass to
    schedule_timer: [mbox.irq_ok ? TIMER_POLL : msecs_to_tb(MBOX_DEFAULT_POLL_MS)]. *)
Definition poll_cadence (irq : bool) : Z :=
  if irq then TIMER_POLL else msecs_to_tb MBOX_DEFAULT_POLL_MS.

(** [int bmc_mbox_enqueue(struct bmc_mbox_msg *msg)] *)
Definition bmc_mbox_enqueue (msg : Z) : M Z :=
  b <- gets base;;
  if b =? 0 then
    prlog PR_CRIT "Using MBOX without init!" [];;
    ret OPAL_WRONG_STATE
  else
    lock;;
    f <- gets in_flight;;
    if negb (f =? NULL) then
      prlog PR_DEBUG "MBOX message already in flight" [];;
      unlock;;
      ret OPAL_BUSY
    else
      with_mbox (set_in_flight msg);;
      unlock;;
      bmc_mbox_send_message msg;;
      irq <- gets irq_ok;;
      schedule_timer (poll_cadence irq);;
      ret 0.

(** The bytes of the message at [msg], as the upcall finds them. *)
Definition read_bytes (m : Z -> Z) (p : Z) (n : Z) : list Z :=
  map (fun i => u8 (m (p + Z.of_nat i))) (List.seq 0 (Z.to_nat n)).

(** [mbox.callback(msg, mbox.drv_data)]: the upcall is code of the caller;
    it is recorded with its arguments and the message bytes it is handed. *)
Definition call_callback (fn msg priv : Z) : M unit :=
  fun s => (tt, s, [EvCallback fn msg priv
                      (read_bytes (mem s) msg BMC_MBOX_DATA_REGS)]).

(** The first [if] of [mbox_poll]: the response check.  The result says
    whether the function executed its [return] statement. *)
Definition mbox_poll_response : M bool :=
  ctrl <- bmc_mbox_inb MBOX_HOST_CTRL;;
  if negb (Z.land ctrl MBOX_CTRL_INT_STATUS =? 0) then
    (* W1C on that reg *)
    bmc_mbox_outb MBOX_CTRL_INT_STATUS MBOX_HOST_CTRL;;
    prlog PR_INSANE "Got a regular interrupt" [];;
    msg <- gets in_flight;;
    if msg =? NULL then
      prlog PR_CRIT "Couldn't find the message!!" [];;
      ret true
    else
      bmc_mbox_recv_message msg;;
      cb <- gets callback;;
      (if negb (cb =? NULL) then
         priv <- gets drv_data;;
         call_callback cb msg priv
       else
         prlog PR_ERR "Detected NULL callback for mbox message" []);;
      lock;;
      with_mbox (set_in_flight NULL);;
      unlock;;
      ret false
  else ret false.

(** The second [if] of [mbox_poll]: the attention check. *)
Definition mbox_poll_attention : M unit :=
  st <- bmc_mbox_inb MBOX_STATUS_1;;
  if negb (Z.land st MBOX_STATUS_ATTN =? 0) then
    (* W1C on that reg *)
    bmc_mbox_outb MBOX_STATUS_ATTN MBOX_STATUS_1;;
    action <- bmc_mbox_inb MBOX_FLAG_REG;;
    prlog PR_INSANE "Got a status register interrupt with action 0x%02x"
          [action];;
    action' <- (if negb (Z.land action BMC_RESET =? 0) then
                  prlog PR_WARNING "BMC reset detected" [];;
                  ret (u8 (Z.land action (Z.lnot BMC_RESET)))
                else ret action);;
    if negb (action' =? 0) then
      prlog PR_ERR "Got a status bit set that don't know about: 0x%02x"
            [action']
    else ret tt
  else ret tt.

(** [static void mbox_poll(struct timer *t, void *data, uint64_t now)] *)
Definition mbox_poll : M unit :=
  returned <- mbox_poll_response;;
  if returned then ret tt
  else
    mbox_poll_attention;;
    irq <- gets irq_ok;;
    schedule_timer (poll_cadence irq).

(** What the two tests of [mbox_poll] find in a given state: the value
    of [bmc_mbox_inb(MBOX_HOST_CTRL) & MBOX_CTRL_INT_STATUS] and of
    [bmc_mbox_inb(MBOX_STATUS_1) & MBOX_STATUS_ATTN], as truth values. *)
Definition response_bit (s : mstate) : bool :=
  negb (Z.land (result (bmc_mbox_inb MBOX_HOST_CTRL s)) MBOX_CTRL_INT_STATUS
        =? 0).
Definition attention_bit (s : mstate) : bool :=
  negb (Z.land (result (bmc_mbox_inb MBOX_STATUS_1 s)) MBOX_STATUS_ATTN =? 0).

(** [static void mbox_irq(uint32_t chip_id, uint32_t irq_mask)] *)
Definition mbox_irq : M unit :=
  with_mbox (set_irq_ok true);;
  mbox_poll.

(** [static bool mbox_init_hw(void)] *)
Definition mbox_init_hw : M bool :=
  (* Disable all status interrupts except attentions *)
  bmc_mbox_outb 0x00 MBOX_HOST_INT_EN_0;;
  bmc_mbox_outb MBOX_STATUS_ATTN MBOX_HOST_INT_EN_1;;
  (* Cleanup host interrupt and status *)
  bmc_mbox_outb MBOX_CTRL_INT_STATUS MBOX_HOST_CTRL;;
  (* Disable host control interrupt for now, clear BMC interrupts *)
  bmc_mbox_outb MBOX_CTRL_INT_MASK MBOX_BMC_CTRL;;
  ret true.

(** [int bmc_mbox_register_callback(callback, drv_data)] *)
Definition bmc_mbox_register_callback (cb priv : Z) : M Z :=
  with_mbox (set_callback cb);;
  with_mbox (set_drv_data priv);;
  ret 0.

(** What [mbox_init] reads from the device tree: the node compatible with
    "mbox", if there is one, with its "interrupts" property (a default of
    0 stands for its absence), the two cells of its "reg" property and the
    chip id; and whether [proc_gen <= proc_gen_p8]. *)
Record dt_node := {
  dt_interrupts : option Z;
  dt_reg : option (Z * Z);
  dt_chip_id : Z
}.

Record boot_env := {
  dt_mbox : option dt_node;
  proc_gen_le_p8 : bool
}.

Definition dt_prop_get_u32_def (v : option Z) (def : Z) : Z :=
  match v with Some x => u32 x | None => def end.

Definition set_client_interrupts (v : Z) : M unit :=
  fun s => (tt, {| mbox := mbox s; client_interrupts := v;
                   lpc := lpc s; mem := mem s |}, []).

(** [void mbox_init(void)] *)
Definition mbox_init (env : boot_env) : M unit :=
  b <- gets base;;
  if negb (b =? 0) then
    prlog PR_ERR "Duplicate call to mbox_init()" []
  else
    prlog PR_DEBUG "Attempting mbox init" [];;
    match dt_mbox env with
    | None =>
        prlog (if proc_gen_le_p8 env then PR_DEBUG else PR_ERR)
              "No device tree entry" []
    | Some np =>
        let irq := dt_prop_get_u32_def (dt_interrupts np) 0 in
        if irq =? 0 then prlog PR_ERR "No interrupts property" []
        else
          present <- lpc_present;;
          if negb present then prlog PR_ERR "LPC not present" []
          else
            match dt_reg np with
            | None => prlog PR_ERR "Can't find reg property" []
            | Some (cell0, cell1) =>
                if negb (u32 cell0 =? OPAL_LPC_IO) then
                  prlog PR_ERR "Only supports IO addresses" []
                else
                  with_mbox (set_base (u32 cell1));;
                  hw <- mbox_init_hw;;
                  if negb hw then prlog PR_DEBUG "Couldn't init HW" []
                  else
                    with_mbox (set_queue_len 0);;
                    with_mbox (set_in_flight NULL);;
                    with_mbox (set_callback NULL);;
                    with_mbox (set_drv_data NULL);;
                    init_lock;;
                    init_timer;;
                    let chip_id := dt_chip_id np in
                    set_client_interrupts (LPC_IRQ irq);;
                    emit (EvRegisterClient chip_id (LPC_IRQ irq));;
                    b' <- gets base;;
                    prlog PR_DEBUG
                          "Enabled on chip %d, IO port 0x%x, IRQ %d"
                          [chip_id; b'; irq]
            end
    end.

End Driver.

(** The values the constants have in skiboot's headers at the time of the
    driver; used where a statement is evaluated on a concrete machine. *)
Definition skiboot_platform : Platform := {|
  BMC_MBOX_DATA_REGS := 14;
  MBOX_DEFAULT_POLL_MS := 200;
  TIMER_POLL := 2 ^ 64 - 1;
  msecs_to_tb := fun ms => ms * 512000;
  OPAL_WRONG_STATE := -14;
  OPAL_BUSY := -2;
  OPAL_LPC_IO := 1;
  LPC_IRQ := fun n => Z.shiftr 0x80000000 n
|}.

(** ** The driver as a transition system

    What can happen to the machine: the entry points of the driver are
    called, the pending timer expires, the bus raises the interrupt, the
    BMC (or the bus) changes the registers, a caller writes its memory. *)
Inductive op :=
| Op_init (env : boot_env)
| Op_register (cb priv : Z)
| Op_enqueue (msg : Z)
| Op_timer
| Op_irq
| Op_bmc (regs : Z -> Z) (ok present : bool)
| Op_store (addr val : Z).

Section System.
Context {P : Platform}.

(** Expiry of the poller: the timer core unlinks a timer before it calls
    its handler, so the request is consumed.  Nothing runs when no request
    is pending. *)
Definition timer_expire : M unit :=
  e <- gets (fun m => t_expiry (poller m));;
  match e with
  | None => ret tt
  | Some _ =>
      with_mbox (fun m => set_poller {| t_target := t_target (poller m);
                                        t_expiry := None |} m);;
      mbox_poll
  end.

Definition bmc_acts (regs : Z -> Z) (ok present : bool) : M unit :=
  fun s => (tt, {| mbox := mbox s;
                   client_interrupts := client_interrupts s;
                   lpc := {| io_base := io_base (lpc s); io_regs := regs;
                             bus_ok := ok; bus_present := present |};
                   mem := mem s |}, []).

(** One step; the value is the code an entry point returns (0 for the
    [void] ones). *)
Definition step (o : op) : M Z :=
  match o with
  | Op_init env => mbox_init env;; ret 0
  | Op_register cb priv => bmc_mbox_register_callback cb priv
  | Op_enqueue msg => bmc_mbox_enqueue msg
  | Op_timer => timer_expire;; ret 0
  | Op_irq => mbox_irq;; ret 0
  | Op_bmc regs ok present => bmc_acts regs ok present;; ret 0
  | Op_store addr val => store_u8 addr val;; ret 0
  end.

(** A run; the value is the list of the codes the steps returned. *)
Fixpoint run (ops : list op) : M (list Z) :=
  match ops with
  | [] => ret []
  | o :: rest => c <- step o;; cs <- run rest;; ret (c :: cs)
  end.

(** The machine at boot: [mbox] and [mbox_lpc_client] are static, hence
    zeroed. *)
Definition boot (d : lpc_bus) (m : Z -> Z) : mstate :=
  {| mbox := {| base := 0; queue_len := 0; irq_ok := false; seq := 0;
                poller := {| t_target := false; t_expiry := None |};
                callback := NULL; drv_data := NULL; in_flight := NULL |};
     client_interrupts := 0;
     lpc := d;
     mem := m |}.

Inductive reachable : mstate -> Prop :=
| reach_boot d m : reachable (boot d m)
| reach_step o s : reachable s -> reachable (final (step o s)).

(** The conditions under which [mbox_init], called with [mbox.base]
    unset, gets past all of its early returns: the device tree has the
    node, its "interrupts" property is non-zero, the bus is present, and
    the "reg" property names an I/O address. *)
Definition init_inputs_ok (env : boot_env) (s : mstate) : bool :=
  match dt_mbox env with
  | None => false
  | Some np =>
      negb (dt_prop_get_u32_def (dt_interrupts np) 0 =? 0)
      && bus_present (lpc s)
      && match dt_reg np with
         | None => false
         | Some (cell0, _) => u32 cell0 =? OPAL_LPC_IO
         end
  end.

(** The second cell of the "reg" property: the I/O base. *)
Definition dt_io_base (env : boot_env) : Z :=
  match dt_mbox env with
  | Some np => match dt_reg np with Some (_, cell1) => u32 cell1 | None => 0 end
  | None => 0
  end.

(** The driver record a completed [mbox_init] leaves: the base recorded,
    the slot, the callback and its context cleared, the poller
    initialised with no request pending; [irq_ok] and [seq] are not
    assigned. *)
Definition mbox_after_init (b : Z) (m : mbox_t) : mbox_t :=
  {| base := b; queue_len := 0; irq_ok := irq_ok m; seq := seq m;
     poller := {| t_target := true; t_expiry := None |};
     callback := NULL; drv_data := NULL; in_flight := NULL |}.

(** The slot is only ever occupied in an initialised driver. *)
Definition slot_inv (m : mbox_t) : Prop :=
  in_flight m <> NULL -> base m <> 0.

(** What a rejected [bmc_mbox_enqueue] does: take the lock, log, release. *)
Definition busy_events : list event :=
  [EvLock; EvLog PR_DEBUG "MBOX message already in flight" []; EvUnlock].

Definition is_irq_op (o : op) : bool :=
  match o with Op_irq => true | _ => false end.

(** How often [mbox.irq_ok] changes its value along a run. *)
Fixpoint mode_switches (ops : list op) (s : mstate) : nat :=
  match ops with
  | [] => O
  | o :: rest =>
      let s' := final (step o s) in
      ((if Bool.eqb (irq_ok (mbox s)) (irq_ok (mbox s')) then 0 else 1)
       + mode_switches rest s')%nat
  end.

(** A concrete machine: the mailbox block decoded at I/O port 0x1000,
    all registers and all of memory zero, and a device tree that describes
    it. *)
Definition bus0 : lpc_bus :=
  {| io_base := 0x1000; io_regs := fun _ => 0;
     bus_ok := true; bus_present := true |}.

Definition mem0 : Z -> Z := fun _ => 0.

Definition env0 : boot_env :=
  {| dt_mbox := Some {| dt_interrupts := Some 9;
                        dt_reg := Some (1, 0x1000);
                        dt_chip_id := 0 |};
     proc_gen_le_p8 := false |}.

(** A device tree whose "reg" property gives I/O base 0. *)
Definition env_base0 : boot_env :=
  {| dt_mbox := Some {| dt_interrupts := Some 9;
                        dt_reg := Some (1, 0);
                        dt_chip_id := 0 |};
     proc_gen_le_p8 := false |}.

(** Event classes. *)
Definition is_io (e : event) : bool :=
  match e with EvInb _ _ | EvOutb _ _ => true | _ => false end.
Definition is_outb (e : event) : bool :=
  match e with EvOutb _ _ => true | _ => false end.
Definition is_callback (e : event) : bool :=
  match e with EvCallback _ _ _ _ => true | _ => false end.
Definition is_schedule (e : event) : bool :=
  match e with EvScheduleTimer _ => true | _ => false end.

End System.

(** The scenario of a completed exchange: the driver is initialised, a
    callback is registered, the message at 0x2000 (first byte 1) is sent,
    and the BMC answers: it puts 1, 2, ..., 8 into the first eight data
    registers and raises the response bit. *)
Definition mem1 : Z -> Z := fun a => if a =? 0x2000 then 1 else 0.

Definition resp_regs : Z -> Z :=
  fun off => if off =? MBOX_HOST_CTRL then 0x80
             else if (0 <=? off) && (off <? 8) then off + 1 else 0.

Definition pending_state : mstate :=
  final (@run skiboot_platform
           [Op_init env0; Op_register 0x4000 0x5000; Op_enqueue 0x2000;
            Op_bmc resp_regs true true]
           (boot bus0 mem1)).

(** The scenario of a response without a request: after the exchange
    above has completed on a timer expiry (which re-armed the poller),
    the BMC raises the response bit once more, together with the
    attention bit. *)
Definition stale_regs : Z -> Z :=
  fun off => if (off =? MBOX_HOST_CTRL) || (off =? MBOX_STATUS_1)
             then 0x80 else 0.

Definition violation_state : mstate :=
  final (@run skiboot_platform
           [Op_timer; Op_bmc stale_regs true true] pending_state).

(** What [mbox_init] does once the hardware is set up (the statements
    after the call of [mbox_init_hw]), for the chip id and the interrupt
    number it has read from the device tree. *)
Definition mbox_init_finish {P : Platform} (chip_id irq : Z) : M unit :=
  (with_mbox (set_queue_len 0);;
   with_mbox (set_in_flight NULL);;
   with_mbox (set_callback NULL);;
   with_mbox (set_drv_data NULL);;
   init_lock;;
   init_timer;;
   set_client_interrupts (LPC_IRQ irq);;
   emit (EvRegisterClient chip_id (LPC_IRQ irq));;
   b' <- gets base;;
   prlog PR_DEBUG "Enabled on chip %d, IO port 0x%x, IRQ %d"
         [chip_id; b'; irq])%mbox.

(** The interrupt number and the chip id of the device tree node. *)
Definition dt_irq (env : boot_env) : Z :=
  match dt_mbox env with
  | Some np => dt_prop_get_u32_def (dt_interrupts np) 0
  | None => 0
  end.

Definition dt_chip (env : boot_env) : Z :=
  match dt_mbox env with Some np => dt_chip_id np | None => 0 end.

(** A device tree without a mailbox node. *)
Definition env_none : boot_env :=
  {| dt_mbox := None; proc_gen_le_p8 := false |}.

(** Further concrete states: the driver initialised with a callback
    registered and nothing pending; a response pending with no callback
    registered; the attention bit raised with the reset flag. *)
Definition ready_state : mstate :=
  final (@run skiboot_platform
           [Op_init env0; Op_register 0x4000 0x5000] (boot bus0 mem1)).

Definition pending_no_callback : mstate :=
  final (@run skiboot_platform
           [Op_init env0; Op_enqueue 0x2000; Op_bmc resp_regs true true]
           (boot bus0 mem1)).

Definition attn_regs : Z -> Z :=
  fun off => if off =? MBOX_STATUS_1 then 0x80
             else if off =? MBOX_FLAG_REG then 1 else 0.

Definition attention_state : mstate :=
  final (@run skiboot_platform [Op_bmc attn_regs true true] ready_state).

(** The lock discipline of a trace, checked from a lock state [held]:
    the lock is not taken while held nor released while free, and no
    port access and no upcall happens while it is held.  The value is the
    lock state at the end, or [None] if the discipline is broken. *)
Fixpoint lock_trace (held : bool) (t : list event) : option bool :=
  match t with
  | [] => Some held
  | EvLock :: t' => if held then None else lock_trace true t'
  | EvUnlock :: t' => if held then lock_trace false t' else None
  | EvInb _ _ :: t' | EvOutb _ _ :: t' | EvCallback _ _ _ _ :: t' =>
      if held then None else lock_trace held t'
  | _ :: t' => lock_trace held t'
  end.

Definition is_lock (e : event) : bool :=
  match e with EvLock | EvUnlock => true | _ => false end.

(** The two write-one-to-clear accesses of a pass. *)
Definition ack_response (b : Z) : event :=
  EvOutb (u8 MBOX_CTRL_INT_STATUS) (u32 (b + u8 MBOX_HOST_CTRL)).
Definition ack_attention (b : Z) : event :=
  EvOutb (u8 MBOX_STATUS_ATTN) (u32 (b + u8 MBOX_STATUS_1)).

(** The port traffic of the two codec loops, for a driver whose base is
    [b]: the transmit loop writes byte [k] of the message at [p] to data
    register [k]; the receive loop reads data register [k]. *)
Definition data_writes (b : Z) (m : Z -> Z) (p n : Z) : list event :=
  map (fun k => EvOutb (u8 (m (p + Z.of_nat k))) (u32 (b + u8 (Z.of_nat k))))
      (List.seq 0 (Z.to_nat n)).

Definition data_reads (d : lpc_bus) (b n : Z) : list event :=
  map (fun k => EvInb (u32 (b + u8 (Z.of_nat k)))
                      (lpc_inb d (u32 (b + u8 (Z.of_nat k)))))
      (List.seq 0 (Z.to_nat n)).

(** The "ping" that ends a transmission. *)
Definition doorbell (b : Z) : event :=
  EvOutb (u8 MBOX_CTRL_INT_SEND) (u32 (b + u8 MBOX_HOST_CTRL)).

(** [keeps R m]: running [m] relates the driver record before and after
    by [R]. *)
Definition keeps (R : mbox_t -> mbox_t -> Prop) {A} (m : M A) : Prop :=
  forall s, R (mbox s) (mbox (final (m s))).

#[global] Arguments u8 : simpl never.
#[global] Arguments u32 : simpl never.
#[global] Arguments lpc_inb : simpl never.
#[global] Arguments lpc_outb : simpl never.

(** ** Laws of the monad *)
Section MonadFacts.

Lemma final_bind {A B} (m : M A) (k : A -> M B) s :
  final (bind m k s) = final (k (result (m s)) (final (m s))).
Proof.
  unfold bind, final, result.
  destruct (m s) as [[a s1] t1]; simpl.
  destruct (k a s1) as [[b s2] t2]; reflexivity.
Qed.

Lemma result_bind {A B} (m : M A) (k : A -> M B) s :
  result (bind m k s) = result (k (result (m s)) (final (m s))).
Proof.
  unfold bind, final, result.
  destruct (m s) as [[a s1] t1]; simpl.
  destruct (k a s1) as [[b s2] t2]; reflexivity.
Qed.

Lemma events_bind {A B} (m : M A) (k : A -> M B) s :
  events (bind m k s) =
  events (m s) ++ events (k (result (m s)) (final (m s))).
Proof.
  unfold bind, final, result, events.
  destruct (m s) as [[a s1] t1]; simpl.
  destruct (k a s1) as [[b s2] t2]; reflexivity.
Qed.

Lemma bind_eq {A B} (m : M A) (k : A -> M B) s a s1 t1 :
  m s = (a, s1, t1) ->
  bind m k s = (result (k a s1), final (k a s1), t1 ++ events (k a s1)).
Proof.
  intros E. unfold bind, result, final, events. rewrite E.
  destruct (k a s1) as [[b s2] t2]; reflexivity.
Qed.

End MonadFacts.

(** ** Frame reasoning

    For a reflexive and transitive [R], [keeps R] is closed under the
    monad's operations, so a frame property of an entry point follows from
    the few places that assign to [mbox]. *)

Create HintDb keeps.

Section Keeps.
Context {P : Platform}.
Variable R : mbox_t -> mbox_t -> Prop.
Hypothesis R_refl : forall m, R m m.
Hypothesis R_trans : forall a b c, R a b -> R b c -> R a c.

Lemma keeps_bind {A B} (m : M A) (k : A -> M B) :
  keeps R m -> (forall a, keeps R (k a)) -> keeps R (bind m k).
Proof.
  intros Hm Hk s. rewrite final_bind.
  eapply R_trans; [apply Hm | apply Hk].
Qed.

Lemma keeps_ret {A} (a : A) : keeps R (ret a).
Proof. intros s; apply R_refl. Qed.

Lemma keeps_gets {A} (f : mbox_t -> A) : keeps R (gets f).
Proof. intros s; apply R_refl. Qed.

Lemma keeps_emit e : keeps R (emit e).
Proof. intros s; apply R_refl. Qed.

Lemma keeps_prlog l t a : keeps R (prlog l t a).
Proof. intros s; apply R_refl. Qed.

Lemma keeps_lock : keeps R lock.
Proof. intros s; apply R_refl. Qed.

Lemma keeps_unlock : keeps R unlock.
Proof. intros s; apply R_refl. Qed.

Lemma keeps_lpc_ok : keeps R lpc_ok.
Proof. intros s; apply R_refl. Qed.

Lemma keeps_lpc_present : keeps R lpc_present.
Proof. intros s; apply R_refl. Qed.

Lemma keeps_load_u8 a : keeps R (load_u8 a).
Proof. intros s; apply R_refl. Qed.

Lemma keeps_store_u8 a v : keeps R (store_u8 a v).
Proof. intros s; apply R_refl. Qed.

Lemma keeps_outb v r : keeps R (bmc_mbox_outb v r).
Proof. intros s; apply R_refl. Qed.

Lemma keeps_inb r : keeps R (bmc_mbox_inb r).
Proof. intros s; apply R_refl. Qed.

Lemma keeps_call_callback f m p : keeps R (call_callback f m p).
Proof. intros s; apply R_refl. Qed.

Lemma keeps_set_client_interrupts v : keeps R (set_client_interrupts v).
Proof. intros s; apply R_refl. Qed.

Lemma keeps_bmc_acts r o p : keeps R (bmc_acts r o p).
Proof. intros s; apply R_refl. Qed.

Lemma keeps_with_mbox f : (forall m, R m (f m)) -> keeps R (with_mbox f).
Proof. intros H s; apply H. Qed.

Lemma keeps_if {A} (c : bool) (m1 m2 : M A) :
  keeps R m1 -> keeps R m2 -> keeps R (if c then m1 else m2).
Proof. destruct c; auto. Qed.

Lemma keeps_for_loop n body :
  (forall j, keeps R (body j)) -> forall i, keeps R (for_loop n i body).
Proof.
  intros Hb. induction n as [|n IH]; intros i; simpl.
  - apply keeps_ret.
  - apply keeps_bind; auto.
Qed.

Hint Resolve keeps_bind keeps_ret keeps_gets keeps_emit keeps_prlog keeps_lock
  keeps_unlock keeps_lpc_ok keeps_lpc_present keeps_load_u8 keeps_store_u8
  keeps_outb keeps_inb keeps_call_callback keeps_set_client_interrupts
  keeps_bmc_acts keeps_if keeps_for_loop : keeps.

Lemma keeps_recv_message msg : keeps R (bmc_mbox_recv_message msg).
Proof. unfold bmc_mbox_recv_message. auto 10 with keeps. Qed.

Lemma keeps_send_message msg : keeps R (bmc_mbox_send_message msg).
Proof. unfold bmc_mbox_send_message. auto 10 with keeps. Qed.

Lemma keeps_poll_attention : keeps R mbox_poll_attention.
Proof. unfold mbox_poll_attention. auto 20 with keeps. Qed.

Lemma keeps_init_hw : keeps R mbox_init_hw.
Proof. unfold mbox_init_hw. auto 10 with keeps. Qed.

Hypothesis R_in_flight : forall m v, v = NULL \/ base m <> 0 -> R m (set_in_flight v m).
Hypothesis R_poller : forall m t, R m (set_poller t m).

Lemma keeps_schedule_timer d : keeps R (schedule_timer d).
Proof.
  unfold schedule_timer.
  apply keeps_bind; [apply keeps_with_mbox; intros; apply R_poller|].
  intros; apply keeps_emit.
Qed.

Lemma keeps_poll_response : keeps R mbox_poll_response.
Proof.
  unfold mbox_poll_response.
  assert (keeps R (with_mbox (set_in_flight NULL)))
    by (apply keeps_with_mbox; intros; apply R_in_flight; now left).
  pose proof keeps_recv_message.
  auto 20 with keeps.
Qed.

Lemma keeps_poll : keeps R mbox_poll.
Proof.
  unfold mbox_poll.
  pose proof keeps_poll_response. pose proof keeps_poll_attention.
  pose proof keeps_schedule_timer.
  auto 10 with keeps.
Qed.

Lemma keeps_timer_expire : keeps R timer_expire.
Proof.
  unfold timer_expire. apply keeps_bind; [apply keeps_gets|].
  intros [d|]; [|apply keeps_ret].
  apply keeps_bind; [apply keeps_with_mbox; intros; apply R_poller|].
  intros; apply keeps_poll.
Qed.

Lemma keeps_enqueue msg : keeps R (bmc_mbox_enqueue msg).
Proof.
  intros s. unfold bmc_mbox_enqueue.
  rewrite final_bind. cbn [gets result final fst snd].
  destruct (base (mbox s) =? 0) eqn:Eb.
  - apply R_refl.
  - apply Z.eqb_neq in Eb.
    rewrite final_bind. cbn [lock emit result final fst snd].
    rewrite final_bind. cbn [gets result final fst snd].
    destruct (negb (in_flight (mbox s) =? NULL)).
    + apply R_refl.
    + revert s Eb.
      change (forall s, base (mbox s) <> 0 -> R (mbox s) (mbox (final
               ((with_mbox (set_in_flight msg);; unlock;;
                 bmc_mbox_send_message msg;; irq <- gets irq_ok;;
                 schedule_timer (poll_cadence irq);; ret 0) s)))).
      intros s Eb. rewrite final_bind.
      apply R_trans with (mbox (final (with_mbox (set_in_flight msg) s)));
        [apply (R_in_flight (mbox s) msg); right; exact Eb|].
      pose proof keeps_send_message. pose proof keeps_schedule_timer.
      match goal with |- R _ (mbox (final (?m _))) =>
        assert (K : keeps R m) by auto 10 with keeps end.
      apply K.
Qed.

End Keeps.

(** ** Loops and port accesses *)
Section Loops.
Context {P : Platform}.

Lemma for_loop_inv (Inv : Z -> mstate -> Prop) body n : forall i s,
  Inv i s ->
  (forall j s', i <= j < i + Z.of_nat n -> Inv j s' ->
                Inv (j + 1) (final (body j s'))) ->
  Inv (i + Z.of_nat n) (final (for_loop n i body s)).
Proof.
  induction n as [|n IH]; intros i s H0 Hstep.
  - cbn [for_loop]. replace (i + Z.of_nat 0) with i by lia. exact H0.
  - cbn [for_loop]. rewrite final_bind.
    replace (i + Z.of_nat (S n)) with ((i + 1) + Z.of_nat n) by lia.
    apply IH.
    + apply Hstep; [lia | exact H0].
    + intros j s' Hj. apply Hstep. lia.
Qed.

Lemma for_loop_events_none (f : event -> bool) body n : forall i s,
  (forall j s', filter f (events (body j s')) = []) ->
  filter f (events (for_loop n i body s)) = [].
Proof.
  induction n as [|n IH]; intros i s Hb.
  - reflexivity.
  - cbn [for_loop]. rewrite events_bind, filter_app, Hb, IH by exact Hb.
    reflexivity.
Qed.

Lemma u8_range v : 0 <= u8 v < 256.
Proof. unfold u8. change (2 ^ 8) with 256. apply Z.mod_pos_bound. lia. Qed.

Lemma u8_small v : 0 <= v < 256 -> u8 v = v.
Proof. intros H. unfold u8. change (2 ^ 8) with 256. now apply Z.mod_small. Qed.

Lemma u8_u8 v : u8 (u8 v) = u8 v.
Proof. apply u8_small, u8_range. Qed.

(** The port address of register [r] decodes to offset [r] of a block
    that sits at the base the driver uses. *)
Lemma reg_offset b r : u32 (u32 (b + u8 r) - b) = u8 r.
Proof.
  unfold u32. rewrite Zminus_mod_idemp_l.
  replace (b + u8 r - b) with (u8 r) by lia.
  apply Z.mod_small. pose proof (u8_range r). change (2 ^ 32) with 4294967296. lia.
Qed.

Lemma inb_attached d b r :
  io_base d = b -> u8 r < MBOX_IO_COUNT ->
  lpc_inb d (u32 (b + u8 r)) = u8 (io_regs d (u8 r)).
Proof.
  intros Hb Hr. unfold lpc_inb. rewrite Hb, reg_offset.
  apply Z.ltb_lt in Hr. rewrite Hr. reflexivity.
Qed.

Lemma outb_attached d b v r :
  io_base d = b -> u8 r < MBOX_IO_COUNT ->
  lpc_outb d v (u32 (b + u8 r)) =
    {| io_base := io_base d;
       io_regs := upd (io_regs d) (u8 r) (reg_write (u8 r) (io_regs d (u8 r)) v);
       bus_ok := bus_ok d;
       bus_present := bus_present d |}.
Proof.
  intros Hb Hr. unfold lpc_outb. rewrite Hb, reg_offset.
  apply Z.ltb_lt in Hr. rewrite Hr. reflexivity.
Qed.

Lemma io_base_outb d v a : io_base (lpc_outb d v a) = io_base d.
Proof. unfold lpc_outb. now destruct (_ <? _). Qed.

Lemma reg_write_data off old v :
  0 <= off < MBOX_STATUS_0 -> reg_write off old v = u8 v.
Proof.
  intros H. unfold reg_write, MBOX_STATUS_0, MBOX_STATUS_1, MBOX_HOST_CTRL in *.
  destruct (off =? 16) eqn:E1; [apply Z.eqb_eq in E1; lia|].
  destruct (off =? 17) eqn:E2; [apply Z.eqb_eq in E2; lia|].
  destruct (off =? 19) eqn:E3; [apply Z.eqb_eq in E3; lia|].
  reflexivity.
Qed.

Lemma upd_same f k v : upd f k v k = v.
Proof. unfold upd. now rewrite Z.eqb_refl. Qed.

Lemma upd_other f k v x : x <> k -> upd f k v x = f x.
Proof. intros H. unfold upd. apply Z.eqb_neq in H. now rewrite H. Qed.

(** The transmit loop and the doorbell: afterwards data register [i]
    holds byte [i] of the message; memory and the driver record are as
    before. *)
Lemma send_message_regs p s :
  io_base (lpc s) = base (mbox s) ->
  0 <= BMC_MBOX_DATA_REGS <= MBOX_STATUS_0 ->
  let s1 := final (bmc_mbox_send_message p s) in
  mbox s1 = mbox s
  /\ mem s1 = mem s
  /\ io_base (lpc s1) = io_base (lpc s)
  /\ (forall i, 0 <= i < BMC_MBOX_DATA_REGS ->
        u8 (io_regs (lpc s1) i) = u8 (mem s (p + i))).
Proof.
  intros Hat HN.
  set (Inv := fun (j : Z) (s' : mstate) =>
    mbox s' = mbox s /\ mem s' = mem s /\ io_base (lpc s') = io_base (lpc s)
    /\ (forall i, 0 <= i < j -> u8 (io_regs (lpc s') i) = u8 (mem s (p + i)))).
  assert (L : Inv (0 + Z.of_nat (Z.to_nat BMC_MBOX_DATA_REGS))
                (final (for_loop (Z.to_nat BMC_MBOX_DATA_REGS) 0
                   (fun i => b <- load_u8 (p + i);; bmc_mbox_outb b i) s))).
  { apply for_loop_inv.
    - unfold Inv. repeat split. intros i Hi. lia.
    - intros j s' Hj (Hm & Hmem & Hio & Hregs).
      rewrite Z2Nat.id in Hj by lia.
      rewrite final_bind. cbn [load_u8 result final fst snd bmc_mbox_outb mbox mem lpc].
      unfold MBOX_STATUS_0 in HN.
      assert (Hj8 : u8 j = j) by (apply u8_small; lia).
      rewrite Hm, outb_attached
        by (rewrite ?Hj8; unfold MBOX_IO_COUNT; congruence || lia).
      unfold Inv. cbn [mbox mem lpc io_base io_regs].
      repeat split; try assumption.
      intros i Hi. rewrite Hj8.
      destruct (Z.eq_dec i j) as [->|Hne].
      + rewrite upd_same, reg_write_data by (unfold MBOX_STATUS_0; lia).
        rewrite Hmem. now rewrite !u8_u8.
      + rewrite upd_other by exact Hne. apply Hregs. lia. }
  rewrite Z2Nat.id in L by lia. cbn [Z.add] in L.
  cbv zeta. unfold bmc_mbox_send_message.
  rewrite final_bind. cbn [lpc_ok result final fst snd].
  rewrite final_bind.
  assert (E0 : final ((if negb (bus_ok (lpc s))
                       then prlog PR_ERR "LPC isn't ok" [] else ret tt) s) = s)
    by (destruct (bus_ok (lpc s)); reflexivity).
  rewrite E0. rewrite final_bind.
  match type of L with Inv _ ?st => set (sl := st) in * end.
  destruct L as (Hm & Hmem & Hio & Hregs).
  rewrite final_bind. cbn [prlog emit result final fst snd].
  cbn [bmc_mbox_outb final fst snd mbox mem lpc].
  repeat split; try assumption.
  - now rewrite io_base_outb.
  - intros i Hi. rewrite Hm.
    rewrite outb_attached by (try congruence; vm_compute; reflexivity).
    cbn [io_regs]. rewrite upd_other.
    + apply Hregs. exact Hi.
    + unfold MBOX_STATUS_0 in HN. vm_compute (u8 MBOX_HOST_CTRL). lia.
Qed.

(** The receive loop: afterwards byte [i] of the message is what data
    register [i] holds; the registers and the driver record are as
    before, and so is the rest of memory. *)
Lemma recv_message_mem q s :
  io_base (lpc s) = base (mbox s) ->
  0 <= BMC_MBOX_DATA_REGS <= MBOX_IO_COUNT ->
  let s2 := final (bmc_mbox_recv_message q s) in
  mbox s2 = mbox s
  /\ lpc s2 = lpc s
  /\ (forall i, 0 <= i < BMC_MBOX_DATA_REGS ->
        mem s2 (q + i) = u8 (io_regs (lpc s) i))
  /\ (forall a, ~ (q <= a < q + BMC_MBOX_DATA_REGS) -> mem s2 a = mem s a).
Proof.
  intros Hat HN.
  set (Inv := fun (j : Z) (s' : mstate) =>
    mbox s' = mbox s /\ lpc s' = lpc s
    /\ (forall i, 0 <= i < j -> mem s' (q + i) = u8 (io_regs (lpc s) i))
    /\ (forall a, ~ (q <= a < q + j) -> mem s' a = mem s a)).
  assert (L : Inv (0 + Z.of_nat (Z.to_nat BMC_MBOX_DATA_REGS))
                (final (bmc_mbox_recv_message q s))).
  { unfold bmc_mbox_recv_message. apply for_loop_inv.
    - unfold Inv. repeat split. intros i Hi. lia.
    - intros j s' Hj (Hm & Hl & Hin & Hout).
      rewrite Z2Nat.id in Hj by lia.
      rewrite final_bind.
      cbn [bmc_mbox_inb store_u8 result final fst snd mbox mem lpc].
      unfold MBOX_IO_COUNT in HN.
      assert (Hj8 : u8 j = j) by (apply u8_small; lia).
      rewrite Hm, Hl, inb_attached
        by (rewrite ?Hj8; unfold MBOX_IO_COUNT; congruence || lia).
      unfold Inv. cbn [mbox mem lpc].
      repeat split; try assumption.
      + intros i Hi. rewrite Hj8, u8_u8.
        destruct (Z.eq_dec i j) as [->|Hne].
        * now rewrite upd_same.
        * rewrite upd_other by lia. apply Hin. lia.
      + intros a Ha. rewrite upd_other by lia. apply Hout. lia. }
  rewrite Z2Nat.id in L by lia. exact L.
Qed.

Lemma read_bytes_ext m1 p m2 q n :
  (forall i, 0 <= i < n -> u8 (m1 (p + i)) = u8 (m2 (q + i))) ->
  read_bytes m1 p n = read_bytes m2 q n.
Proof.
  intros H. unfold read_bytes. apply map_ext_in.
  intros i Hi. apply in_seq in Hi. apply H. lia.
Qed.

Lemma recv_message_no_callback q s :
  filter is_callback (events (bmc_mbox_recv_message q s)) = [].
Proof.
  apply for_loop_events_none. intros j s'. reflexivity.
Qed.

End Loops.

(** ** The completion detector *)
Section Detector.
Context {P : Platform}.

Lemma io_regs_outb_other d b v r off :
  io_base d = b -> off <> u8 r ->
  io_regs (lpc_outb d v (u32 (b + u8 r))) off = io_regs d off.
Proof.
  intros Hb Hne. unfold lpc_outb. rewrite Hb, reg_offset.
  destruct (u8 r <? MBOX_IO_COUNT); [|reflexivity].
  cbn [io_regs]. now apply upd_other.
Qed.

(** The attention check assigns nothing of the driver record and no
    memory, makes no upcall and no timer request, and writes no register
    but the second status register. *)
Lemma poll_attention_frame s :
  exists st evs,
    mbox_poll_attention s = (tt, st, evs)
    /\ mbox st = mbox s
    /\ mem st = mem s
    /\ io_base (lpc st) = io_base (lpc s)
    /\ filter is_callback evs = []
    /\ filter is_schedule evs = []
    /\ (io_base (lpc s) = base (mbox s) ->
        forall off, off <> MBOX_STATUS_1 ->
                    io_regs (lpc st) off = io_regs (lpc s) off).
Proof.
  unfold mbox_poll_attention.
  unfold bind at 1. cbn [bmc_mbox_inb].
  destruct (negb (Z.land _ MBOX_STATUS_ATTN =? 0)).
  - unfold bind at 1. cbn [bmc_mbox_outb].
    unfold bind at 1. cbn [bmc_mbox_inb mbox lpc].
    unfold bind at 1. cbn [prlog emit].
    unfold bind at 1.
    assert (Hoff : forall off, io_base (lpc s) = base (mbox s) ->
              off <> MBOX_STATUS_1 ->
              io_regs (lpc_outb (lpc s) (u8 MBOX_STATUS_ATTN)
                         (u32 (base (mbox s) + u8 MBOX_STATUS_1))) off
              = io_regs (lpc s) off).
    { intros off Hat Hne. apply io_regs_outb_other; [exact Hat|].
      vm_compute (u8 MBOX_STATUS_1). exact Hne. }
    destruct (negb (Z.land _ BMC_RESET =? 0));
      unfold bind; cbn [prlog emit ret];
      match goal with |- context [negb (?a =? 0)] =>
        destruct (negb (a =? 0)) end;
      cbn [prlog emit ret];
      (do 2 eexists; split; [reflexivity|]);
      cbn [mbox mem lpc app filter is_callback is_schedule];
      rewrite io_base_outb; repeat split; auto.
  - do 2 eexists; split; [reflexivity|]. cbn. repeat split.
Qed.

Lemma recv_message_frame q s :
  exists st evs,
    bmc_mbox_recv_message q s = (tt, st, evs)
    /\ mbox st = mbox s
    /\ lpc st = lpc s
    /\ filter is_callback evs = []
    /\ filter is_schedule evs = [].
Proof.
  pose proof (recv_message_no_callback q s) as Hc.
  assert (Hs : filter is_schedule (events (bmc_mbox_recv_message q s)) = [])
    by (apply for_loop_events_none; intros j s'; reflexivity).
  assert (Hf : mbox (final (bmc_mbox_recv_message q s)) = mbox s
               /\ lpc (final (bmc_mbox_recv_message q s)) = lpc s).
  { unfold bmc_mbox_recv_message.
    apply (for_loop_inv (fun _ s' => mbox s' = mbox s /\ lpc s' = lpc s)).
    - split; reflexivity.
    - intros j s' _ [Hm Hl]. rewrite final_bind. cbn. split; assumption. }
  destruct (bmc_mbox_recv_message q s) as [[[] st] evs].
  exists st, evs. cbn in *. tauto.
Qed.

(** The response check when the bit is set and a message is in flight. *)
Lemma poll_response_delivers s :
  response_bit s = true ->
  in_flight (mbox s) <> NULL ->
  let msg := in_flight (mbox s) in
  let sa := final (bmc_mbox_outb MBOX_CTRL_INT_STATUS MBOX_HOST_CTRL s) in
  let sb := final (bmc_mbox_recv_message msg sa) in
  exists st evs,
    mbox_poll_response s = (false, st, evs)
    /\ mbox st = set_in_flight NULL (mbox s)
    /\ lpc st = lpc sa
    /\ mem st = mem sb
    /\ filter is_schedule evs = []
    /\ filter is_callback evs =
         if callback (mbox s) =? NULL then []
         else [EvCallback (callback (mbox s)) msg (drv_data (mbox s))
                 (read_bytes (mem sb) msg BMC_MBOX_DATA_REGS)].
Proof.
  intros Hbit Hf msg sa sb.
  unfold response_bit in Hbit. cbn [bmc_mbox_inb result fst] in Hbit.
  apply Z.eqb_neq in Hf.
  unfold mbox_poll_response.
  unfold bind at 1. cbn [bmc_mbox_inb].
  rewrite Hbit.
  unfold bind at 1. change (bmc_mbox_outb MBOX_CTRL_INT_STATUS MBOX_HOST_CTRL s)
    with (tt, sa, [EvOutb (u8 MBOX_CTRL_INT_STATUS)
                     (u32 (base (mbox s) + u8 MBOX_HOST_CTRL))]).
  cbn iota beta.
  unfold bind at 1. cbn [prlog emit].
  unfold bind at 1. cbn [gets].
  change (in_flight (mbox sa)) with (in_flight (mbox s)). rewrite Hf.
  fold msg. unfold bind at 1.
  destruct (recv_message_frame msg sa) as (s1 & t1 & E & Hm1 & Hl1 & Hc1 & Hs1).
  assert (Esb : sb = s1) by (unfold sb; rewrite E; reflexivity).
  rewrite E, Esb.
  unfold bind at 1. cbn [gets].
  change (mbox sa) with (mbox s) in Hm1. rewrite Hm1.
  destruct (callback (mbox s) =? NULL); cbn [negb];
    unfold bind; cbn [gets call_callback prlog emit lock unlock with_mbox ret];
    (do 2 eexists; split; [reflexivity|]);
    cbn [mbox lpc mem]; rewrite ?Hm1;
    rewrite ?filter_app, ?Hc1, ?Hs1; cbn; repeat split; auto.
Qed.

(** What a pass does after a response check that did not return: the
    attention check, then the timer request. *)
Lemma poll_after_response s st evs :
  mbox_poll_response s = (false, st, evs) ->
  exists st' evs',
    mbox_poll s = (tt, st', evs ++ evs' ++
                         [EvScheduleTimer (poll_cadence (irq_ok (mbox st)))])
    /\ base (mbox st') = base (mbox st)
    /\ in_flight (mbox st') = in_flight (mbox st)
    /\ irq_ok (mbox st') = irq_ok (mbox st)
    /\ t_expiry (poller (mbox st'))
       = Some (poll_cadence (irq_ok (mbox st)))
    /\ mem st' = mem st
    /\ io_base (lpc st') = io_base (lpc st)
    /\ filter is_callback evs' = []
    /\ filter is_schedule evs' = []
    /\ (io_base (lpc st) = base (mbox st) ->
        forall off, off <> MBOX_STATUS_1 ->
                    io_regs (lpc st') off = io_regs (lpc st) off).
Proof.
  intros E.
  destruct (poll_attention_frame st)
    as (sa & ta & Ea & Hm & Hmem & Hio & Hc & Hs & Hregs).
  unfold mbox_poll. unfold bind at 1. rewrite E.
  unfold bind at 1. rewrite Ea.
  unfold bind, schedule_timer, gets, with_mbox, emit.
  cbn [mbox app]. rewrite Hm.
  do 2 eexists. split; [reflexivity|].
  cbn [mbox mem lpc set_poller base in_flight irq_ok poller t_expiry].
  repeat split; auto; rewrite Hm; reflexivity.
Qed.

(** The response check when the bit is clear: one port read, nothing
    else. *)
Lemma poll_response_idle s :
  response_bit s = false ->
  mbox_poll_response s =
    (false, s, [EvInb (u32 (base (mbox s) + u8 MBOX_HOST_CTRL))
                      (lpc_inb (lpc s) (u32 (base (mbox s) + u8 MBOX_HOST_CTRL)))]).
Proof.
  unfold response_bit. cbn [bmc_mbox_inb result fst]. intros H.
  unfold mbox_poll_response. unfold bind. cbn [bmc_mbox_inb].
  rewrite H. reflexivity.
Qed.

(** The response check when the bit is set and the slot is empty: the
    bit is written back, two lines are logged, and the function
    returns. *)
Lemma poll_returns_early s :
  response_bit s = true ->
  in_flight (mbox s) = NULL ->
  mbox_poll s =
    (tt, final (bmc_mbox_outb MBOX_CTRL_INT_STATUS MBOX_HOST_CTRL s),
     [EvInb (u32 (base (mbox s) + u8 MBOX_HOST_CTRL))
            (lpc_inb (lpc s) (u32 (base (mbox s) + u8 MBOX_HOST_CTRL)));
      EvOutb (u8 MBOX_CTRL_INT_STATUS) (u32 (base (mbox s) + u8 MBOX_HOST_CTRL));
      EvLog PR_INSANE "Got a regular interrupt" [];
      EvLog PR_CRIT "Couldn't find the message!!" []]).
Proof.
  unfold response_bit. cbn [bmc_mbox_inb result fst]. intros H Hf.
  unfold mbox_poll, mbox_poll_response.
  unfold bind. cbn [bmc_mbox_inb]. rewrite H.
  cbn [bmc_mbox_outb prlog emit gets mbox]. rewrite Hf.
  reflexivity.
Qed.

(** Outside the case above a pass ends with the timer request, on the
    cadence of the current mode. *)
Lemma poll_rearms s :
  response_bit s = false \/ in_flight (mbox s) <> NULL ->
  exists evs,
    events (mbox_poll s)
    = evs ++ [EvScheduleTimer (poll_cadence (irq_ok (mbox s)))]
    /\ t_expiry (poller (mbox (final (mbox_poll s))))
       = Some (poll_cadence (irq_ok (mbox s))).
Proof.
  intros H.
  assert (E : exists st evs, mbox_poll_response s = (false, st, evs)
                             /\ irq_ok (mbox st) = irq_ok (mbox s)).
  { destruct (response_bit s) eqn:Hbit.
    - destruct H as [H|H]; [discriminate|].
      destruct (poll_response_delivers s Hbit H)
        as (st & evs & E & Hm & _).
      exists st, evs. split; [exact E | rewrite Hm; reflexivity].
    - exists s. eexists. split; [apply poll_response_idle, Hbit | reflexivity]. }
  destruct E as (st & evs & E & Hirq).
  destruct (poll_after_response s st evs E)
    as (st' & evs' & E' & _ & _ & _ & Ht & _).
  rewrite E'. unfold events, final. cbn [fst snd].
  exists (evs ++ evs'). rewrite <- Hirq.
  split; [now rewrite app_assoc | exact Ht].
Qed.

Lemma w1c_clears_attention old :
  Z.land (u8 (reg_write MBOX_STATUS_1 old (u8 MBOX_STATUS_ATTN)))
         MBOX_STATUS_ATTN = 0.
Proof.
  change (reg_write MBOX_STATUS_1 old (u8 MBOX_STATUS_ATTN))
    with (Z.ldiff (u8 old) 128).
  unfold u8 at 1. rewrite <- Z.land_ones by lia.
  rewrite Z.ldiff_land, <- !Z.land_assoc.
  change (Z.land (Z.lnot 128) (Z.land (Z.ones 8) MBOX_STATUS_ATTN)) with 0.
  apply Z.land_0_r.
Qed.

(** The attention check on a set bit writes the bit back, which clears
    it when the driver sits on the block. *)
Lemma poll_attention_services s :
  attention_bit s = true ->
  In (EvOutb (u8 MBOX_STATUS_ATTN) (u32 (base (mbox s) + u8 MBOX_STATUS_1)))
     (events (mbox_poll_attention s))
  /\ (io_base (lpc s) = base (mbox s) ->
      attention_bit (final (mbox_poll_attention s)) = false).
Proof.
  intros Hbit. unfold attention_bit in Hbit.
  cbn [bmc_mbox_inb result fst] in Hbit.
  set (sa := final (bmc_mbox_outb MBOX_STATUS_ATTN MBOX_STATUS_1 s)).
  assert (Hlpc : lpc (final (mbox_poll_attention s)) = lpc sa
                 /\ mbox (final (mbox_poll_attention s)) = mbox s).
  { unfold mbox_poll_attention.
    rewrite final_bind. cbn [bmc_mbox_inb result final fst snd].
    rewrite Hbit. rewrite final_bind. fold sa.
    rewrite final_bind. cbn [bmc_mbox_inb result final fst snd].
    rewrite final_bind. cbn [prlog emit result final fst snd].
    rewrite final_bind.
    destruct (negb (Z.land _ BMC_RESET =? 0));
      [rewrite result_bind, final_bind|];
      cbn [prlog emit ret result final fst snd];
      match goal with |- context [negb (?a =? 0)] =>
        destruct (negb (a =? 0)) end;
      split; reflexivity. }
  destruct Hlpc as [Hlpc Hm].
  split.
  - unfold mbox_poll_attention.
    rewrite events_bind. cbn [bmc_mbox_inb result final events fst snd].
    rewrite Hbit. rewrite events_bind.
    cbn [bmc_mbox_outb events snd app]. right. left. reflexivity.
  - intros Hat. unfold attention_bit. cbn [bmc_mbox_inb result fst].
    rewrite Hlpc, Hm. unfold sa. cbn [bmc_mbox_outb final fst snd lpc].
    rewrite inb_attached
      by (rewrite ?io_base_outb; try congruence; vm_compute; reflexivity).
    rewrite outb_attached by (try congruence; vm_compute; reflexivity).
    cbn [io_regs]. rewrite upd_same.
    change (u8 MBOX_STATUS_1) with MBOX_STATUS_1.
    rewrite w1c_clears_attention. reflexivity.
Qed.

Lemma w1c_clears_response old :
  Z.land (u8 (reg_write MBOX_HOST_CTRL old (u8 MBOX_CTRL_INT_STATUS)))
         MBOX_CTRL_INT_STATUS = 0.
Proof.
  change (reg_write MBOX_HOST_CTRL old (u8 MBOX_CTRL_INT_STATUS))
    with (Z.lor (Z.ldiff (Z.land (u8 old) 128) 128) 0).
  rewrite Z.lor_0_r, Z.ldiff_land, <- Z.land_assoc.
  change (Z.land 128 (Z.lnot 128)) with 0. rewrite Z.land_0_r.
  reflexivity.
Qed.

Lemma response_bit_attached s :
  io_base (lpc s) = base (mbox s) ->
  response_bit s =
  negb (Z.land (u8 (io_regs (lpc s) MBOX_HOST_CTRL)) MBOX_CTRL_INT_STATUS =? 0).
Proof.
  intros Hat. unfold response_bit. cbn [bmc_mbox_inb result fst].
  rewrite inb_attached by (try congruence; vm_compute; reflexivity).
  reflexivity.
Qed.

End Detector.

(** ** Initialisation *)
Section InitFacts.
Context {P : Platform}.

Lemma mbox_init_duplicate env s :
  base (mbox s) <> 0 ->
  mbox_init env s =
    (tt, s, [EvLog PR_ERR "Duplicate call to mbox_init()" []]).
Proof.
  intros Hb. apply Z.eqb_neq in Hb.
  unfold mbox_init, bind, gets. rewrite Hb. reflexivity.
Qed.

Lemma mbox_init_mbox env s :
  mbox (final (mbox_init env s)) = mbox s
  \/ (base (mbox s) = 0
      /\ mbox (final (mbox_init env s))
         = mbox_after_init (dt_io_base env) (mbox s)).
Proof.
  unfold mbox_init, dt_io_base.
  rewrite final_bind. cbn [gets result final fst snd].
  destruct (base (mbox s) =? 0) eqn:Eb; [|left; reflexivity].
  apply Z.eqb_eq in Eb.
  cbn [negb]. rewrite final_bind. cbn [prlog emit result final fst snd].
  destruct (dt_mbox env) as [np|]; [|left; reflexivity].
  cbv zeta.
  destruct (dt_prop_get_u32_def (dt_interrupts np) 0 =? 0);
    [left; reflexivity|].
  rewrite final_bind. cbn [lpc_present result final fst snd].
  destruct (bus_present (lpc s)); [|left; reflexivity].
  cbn [negb].
  destruct (dt_reg np) as [[c0 c1]|]; [|left; reflexivity].
  destruct (u32 c0 =? OPAL_LPC_IO); [|left; reflexivity].
  right. split; [exact Eb|]. reflexivity.
Qed.

Lemma mbox_init_hw_eq s :
  mbox_init_hw s =
    (true,
     {| mbox := mbox s;
        client_interrupts := client_interrupts s;
        lpc := lpc_outb (lpc_outb (lpc_outb (lpc_outb (lpc s)
                 (u8 0x00) (u32 (base (mbox s) + u8 MBOX_HOST_INT_EN_0)))
                 (u8 MBOX_STATUS_ATTN)
                 (u32 (base (mbox s) + u8 MBOX_HOST_INT_EN_1)))
                 (u8 MBOX_CTRL_INT_STATUS)
                 (u32 (base (mbox s) + u8 MBOX_HOST_CTRL)))
                 (u8 MBOX_CTRL_INT_MASK)
                 (u32 (base (mbox s) + u8 MBOX_BMC_CTRL));
        mem := mem s |},
     [EvOutb (u8 0x00) (u32 (base (mbox s) + u8 MBOX_HOST_INT_EN_0));
      EvOutb (u8 MBOX_STATUS_ATTN) (u32 (base (mbox s) + u8 MBOX_HOST_INT_EN_1));
      EvOutb (u8 MBOX_CTRL_INT_STATUS) (u32 (base (mbox s) + u8 MBOX_HOST_CTRL));
      EvOutb (u8 MBOX_CTRL_INT_MASK) (u32 (base (mbox s) + u8 MBOX_BMC_CTRL))]).
Proof. reflexivity. Qed.

(** The part of [mbox_init] that follows the last early return. *)
Lemma mbox_init_tail chip irq s :
  let r := (with_mbox (set_queue_len 0);;
            with_mbox (set_in_flight NULL);;
            with_mbox (set_callback NULL);;
            with_mbox (set_drv_data NULL);;
            init_lock;;
            init_timer;;
            set_client_interrupts (LPC_IRQ irq);;
            emit (EvRegisterClient chip (LPC_IRQ irq));;
            b' <- gets base;;
            prlog PR_DEBUG "Enabled on chip %d, IO port 0x%x, IRQ %d"
                  [chip; b'; irq]) s in
  mbox (final r) = mbox_after_init (base (mbox s)) (mbox s)
  /\ mem (final r) = mem s
  /\ filter is_schedule (events r) = []
  /\ filter is_callback (events r) = []
  /\ filter is_io (events r) = []
  /\ In EvInitTimer (events r).
Proof.
  cbv zeta. repeat split.
  rewrite !events_bind. unfold init_timer. rewrite events_bind.
  cbn. auto.
Qed.

Lemma mbox_init_succeeds env s :
  base (mbox s) = 0 ->
  init_inputs_ok env s = true ->
  let r := mbox_init env s in
  mbox (final r) = mbox_after_init (dt_io_base env) (mbox s)
  /\ mem (final r) = mem s
  /\ filter is_schedule (events r) = []
  /\ filter is_callback (events r) = []
  /\ filter is_io (events r) =
       [EvOutb (u8 0x00) (u32 (dt_io_base env + u8 MBOX_HOST_INT_EN_0));
        EvOutb (u8 MBOX_STATUS_ATTN)
               (u32 (dt_io_base env + u8 MBOX_HOST_INT_EN_1));
        EvOutb (u8 MBOX_CTRL_INT_STATUS)
               (u32 (dt_io_base env + u8 MBOX_HOST_CTRL));
        EvOutb (u8 MBOX_CTRL_INT_MASK)
               (u32 (dt_io_base env + u8 MBOX_BMC_CTRL))]
  /\ In EvInitTimer (events r).
Proof.
  intros Hb Hok. apply Z.eqb_eq in Hb.
  unfold init_inputs_ok in Hok. unfold dt_io_base.
  destruct (dt_mbox env) as [np|] eqn:Enp; [|discriminate].
  apply andb_prop in Hok. destruct Hok as [Hok Hreg].
  apply andb_prop in Hok. destruct Hok as [Hirq Hpres].
  destruct (dt_reg np) as [[c0 c1]|] eqn:Ereg; [|discriminate].
  apply negb_true_iff in Hirq.
  set (irq := dt_prop_get_u32_def (dt_interrupts np) 0) in *.
  set (s1 := final (with_mbox (set_base (u32 c1)) s)).
  set (s2 := final (mbox_init_hw s1)).
  destruct (mbox_init_tail (dt_chip_id np) irq s2)
    as (Tm & Tmem & Ts & Tc & Tio & Tin).
  set (tail := (with_mbox (set_queue_len 0);; _) s2) in *.
  assert (Ef : final (mbox_init env s) = final tail).
  { unfold mbox_init. rewrite Enp, Ereg. cbv zeta. fold irq.
    rewrite final_bind. cbn [gets result final fst snd]. rewrite Hb.
    cbn [negb].
    rewrite final_bind. cbn [prlog emit result final fst snd]. rewrite Hirq.
    rewrite final_bind. cbn [lpc_present result final fst snd].
    rewrite Hpres, Hreg. cbn [negb].
    rewrite final_bind. fold s1. rewrite final_bind. fold s2.
    change (result (mbox_init_hw s1)) with true. cbn [negb].
    reflexivity. }
  assert (Ee : events (mbox_init env s) =
               EvLog PR_DEBUG "Attempting mbox init" []
               :: events (mbox_init_hw s1) ++ events tail).
  { unfold mbox_init. rewrite Enp, Ereg. cbv zeta. fold irq.
    rewrite events_bind. cbn [gets result final events fst snd app].
    rewrite Hb. cbn [negb].
    rewrite events_bind. cbn [prlog emit result final events fst snd app].
    rewrite Hirq.
    rewrite events_bind. cbn [lpc_present result final events fst snd app].
    rewrite Hpres, Hreg. cbn [negb].
    rewrite events_bind. fold s1.
    change (events (with_mbox (set_base (u32 c1)) s)) with (@nil event).
    cbn [app]. rewrite events_bind. fold s2.
    change (result (mbox_init_hw s1)) with true. cbn [negb].
    reflexivity. }
  assert (Hs2m : mbox s2 = set_base (u32 c1) (mbox s)) by reflexivity.
  assert (Hs2mem : mem s2 = mem s) by reflexivity.
  cbv zeta. rewrite Ef, Ee, Tm, Tmem, Hs2m, Hs2mem.
  cbn [filter is_schedule is_callback is_io In].
  rewrite !filter_app, Ts, Tc, Tio, (mbox_init_hw_eq s1).
  repeat split.
  right. apply in_or_app. right. exact Tin.
Qed.

End InitFacts.

(** ** Invariants of the transition system *)
Section Invariants.
Context {P : Platform}.

Lemma final_then_ret {A} (m : M A) (z : Z) s :
  final ((m;; ret z) s) = final (m s).
Proof. rewrite final_bind. reflexivity. Qed.

Lemma step_slot_inv o s :
  slot_inv (mbox s) -> slot_inv (mbox (final (step o s))).
Proof.
  set (R := fun m m' : mbox_t => slot_inv m -> slot_inv m').
  assert (Rr : forall m, R m m) by (intros m H; exact H).
  assert (Rt : forall a b c, R a b -> R b c -> R a c)
    by (intros a b c H1 H2 H; auto).
  assert (Rf : forall m v, v = NULL \/ base m <> 0 -> R m (set_in_flight v m)).
  { intros m v [Hv|Hb] _ Hf; cbn in *; [contradiction | exact Hb]. }
  assert (Rp : forall m t, R m (set_poller t m)) by (intros m t H; exact H).
  destruct o as [env|cb priv|msg| | |regs ok present|addr val];
    cbn [step]; rewrite ?final_then_ret.
  - intros H. destruct (mbox_init_mbox env s) as [E|[_ E]]; rewrite E.
    + exact H.
    + intros Hf. cbn in Hf. contradiction.
  - intros H. exact H.
  - apply (keeps_enqueue R Rr Rt Rf Rp msg s).
  - apply (keeps_timer_expire R Rr Rt Rf Rp s).
  - unfold mbox_irq. rewrite final_bind.
    intros H. apply (keeps_poll R Rr Rt Rf Rp). exact H.
  - intros H. exact H.
  - intros H. exact H.
Qed.

Lemma reachable_slot_inv s : reachable s -> slot_inv (mbox s).
Proof.
  induction 1 as [d m|o s Hs IH].
  - intros H. cbn in H. contradiction.
  - apply step_slot_inv. exact IH.
Qed.

(** Except for the interrupt handler, no step assigns [irq_ok]. *)
Lemma step_irq_ok_other o s :
  is_irq_op o = false ->
  irq_ok (mbox (final (step o s))) = irq_ok (mbox s).
Proof.
  set (R := fun m m' : mbox_t => irq_ok m' = irq_ok m).
  assert (Rr : forall m, R m m) by reflexivity.
  assert (Rt : forall a b c, R a b -> R b c -> R a c)
    by (unfold R; intros; congruence).
  assert (Rf : forall m v, v = NULL \/ base m <> 0 -> R m (set_in_flight v m))
    by reflexivity.
  assert (Rp : forall m t, R m (set_poller t m)) by reflexivity.
  destruct o as [env|cb priv|msg| | |regs ok present|addr val];
    cbn [step is_irq_op]; intros Hirq; try discriminate;
    rewrite ?final_then_ret.
  - destruct (mbox_init_mbox env s) as [E|[_ E]]; rewrite E; reflexivity.
  - reflexivity.
  - apply (keeps_enqueue R Rr Rt Rf Rp msg s).
  - apply (keeps_timer_expire R Rr Rt Rf Rp s).
  - reflexivity.
  - reflexivity.
Qed.

Lemma step_irq_sets_mode s : irq_ok (mbox (final (step Op_irq s))) = true.
Proof.
  set (R := fun m m' : mbox_t => irq_ok m' = irq_ok m).
  assert (K : keeps R mbox_poll).
  { apply keeps_poll; unfold R; try reflexivity; intros; congruence. }
  cbn [step]. rewrite final_then_ret. unfold mbox_irq. rewrite final_bind.
  rewrite (K _). reflexivity.
Qed.

Lemma step_irq_ok o s :
  irq_ok (mbox (final (step o s))) = irq_ok (mbox s) || is_irq_op o.
Proof.
  destruct (is_irq_op o) eqn:E.
  - destruct o; try discriminate. rewrite step_irq_sets_mode.
    now rewrite orb_true_r.
  - rewrite step_irq_ok_other by exact E. now rewrite orb_false_r.
Qed.

Lemma final_run_cons o ops s :
  final (run (o :: ops) s) = final (run ops (final (step o s))).
Proof. cbn [run]. rewrite !final_bind. reflexivity. Qed.

Lemma reachable_run ops : forall s,
  reachable s -> reachable (final (run ops s)).
Proof.
  induction ops as [|o ops IH]; intros s Hs.
  - exact Hs.
  - rewrite final_run_cons. apply IH, reach_step, Hs.
Qed.

Lemma run_irq_ok ops : forall s,
  irq_ok (mbox (final (run ops s))) = irq_ok (mbox s) || existsb is_irq_op ops.
Proof.
  induction ops as [|o ops IH]; intros s.
  - cbn. now rewrite orb_false_r.
  - rewrite final_run_cons, IH, step_irq_ok. cbn [existsb].
    now rewrite orb_assoc.
Qed.

Lemma mode_switches_count ops : forall s,
  mode_switches ops s =
  if irq_ok (mbox s) then O
  else if existsb is_irq_op ops then 1%nat else O.
Proof.
  induction ops as [|o ops IH]; intros s.
  - cbn. now destruct (irq_ok (mbox s)).
  - cbn [mode_switches existsb]. rewrite IH, step_irq_ok.
    destruct (irq_ok (mbox s)), (is_irq_op o); cbn; try reflexivity;
      try (now destruct (existsb is_irq_op ops)).
Qed.

End Invariants.

Section Properties.
Context {P : Platform}.

Ltac mstep :=
  (rewrite final_bind || rewrite result_bind || rewrite events_bind);
  cbn [gets emit prlog lock unlock lpc_ok lpc_present ret
       result final events fst snd app].

(** *** NotInitialized *)

(** C5: with [mbox.base] unset, [bmc_mbox_enqueue] returns
    OPAL_WRONG_STATE for every message, hands back the machine it was
    given (driver state, registers and memory alike), and its only event
    is the log line: no port is read or written. *)
Theorem enqueue_without_init (s : mstate) (msg : Z) :
  base (mbox s) = 0 ->
  bmc_mbox_enqueue msg s =
    (OPAL_WRONG_STATE, s, [EvLog PR_CRIT "Using MBOX without init!" []])
  /\ filter is_io (events (bmc_mbox_enqueue msg s)) = [].
Proof.
  intros Hb.
  assert (E : bmc_mbox_enqueue msg s =
    (OPAL_WRONG_STATE, s, [EvLog PR_CRIT "Using MBOX without init!" []])).
  { unfold bmc_mbox_enqueue, bind, gets. rewrite Hb. reflexivity. }
  split; [exact E | rewrite E; reflexivity].
Qed.

(** *** registerCallback *)

(** C10: [bmc_mbox_register_callback] returns 0 for every pair of
    arguments (a NULL callback included) and in every state (before
    initialisation included); afterwards [mbox.callback] and
    [mbox.drv_data] are the arguments of this call, whatever was
    registered before, and nothing else of the machine has changed. *)
Theorem register_callback_always_succeeds (s : mstate) (cb priv : Z) :
  let r := bmc_mbox_register_callback cb priv s in
  result r = 0
  /\ callback (mbox (final r)) = cb
  /\ drv_data (mbox (final r)) = priv
  /\ base (mbox (final r)) = base (mbox s)
  /\ in_flight (mbox (final r)) = in_flight (mbox s)
  /\ irq_ok (mbox (final r)) = irq_ok (mbox s)
  /\ poller (mbox (final r)) = poller (mbox s)
  /\ lpc (final r) = lpc s
  /\ mem (final r) = mem s
  /\ events r = []
  /\ (forall cb' priv',
        let r' := bmc_mbox_register_callback cb' priv' (final r) in
        result r' = 0
        /\ callback (mbox (final r')) = cb'
        /\ drv_data (mbox (final r')) = priv').
Proof.
  repeat split.
Qed.

(** *** The single in-flight slot *)

Lemma enqueue_busy s msg :
  base (mbox s) <> 0 ->
  in_flight (mbox s) <> NULL ->
  bmc_mbox_enqueue msg s = (OPAL_BUSY, s, busy_events).
Proof.
  intros Hb Hf. apply Z.eqb_neq in Hb. apply Z.eqb_neq in Hf.
  unfold bmc_mbox_enqueue.
  unfold bind at 1. cbn [gets]. rewrite Hb.
  unfold bind at 1. cbn [lock emit].
  unfold bind at 1. cbn [gets]. rewrite Hf.
  reflexivity.
Qed.

(** An accepted call: with the base set and the slot empty the call
    returns 0 and the slot refers to the message. *)
Lemma enqueue_accepted s msg :
  base (mbox s) <> 0 ->
  in_flight (mbox s) = NULL ->
  let r := bmc_mbox_enqueue msg s in
  result r = 0
  /\ in_flight (mbox (final r)) = msg
  /\ base (mbox (final r)) = base (mbox s)
  /\ t_expiry (poller (mbox (final r)))
     = Some (poll_cadence (irq_ok (mbox s))).
Proof.
  intros Hb Hf r. apply Z.eqb_neq in Hb.
  set (R := fun m m' : mbox_t =>
              in_flight m' = in_flight m /\ base m' = base m
              /\ irq_ok m' = irq_ok m).
  assert (K : keeps R (bmc_mbox_send_message msg)).
  { apply keeps_send_message; unfold R.
    - intros; repeat split.
    - intros a b c (H1 & H2 & H3) (H4 & H5 & H6). repeat split; congruence. }
  set (s0 := final (with_mbox (set_in_flight msg) s)).
  set (s1 := final (bmc_mbox_send_message msg s0)).
  destruct (K s0) as (K1 & K2 & K3). fold s1 in K1, K2, K3.
  cbn [s0 with_mbox final fst snd mbox set_in_flight in_flight base irq_ok]
    in K1, K2, K3.
  assert (Er : result r = 0).
  { unfold r, bmc_mbox_enqueue.
    mstep. rewrite Hb. do 2 mstep. rewrite Hf.
    change (negb (NULL =? NULL)) with false. cbv iota.
    repeat mstep. reflexivity. }
  assert (Ef : final r
               = final (schedule_timer (poll_cadence (irq_ok (mbox s1))) s1)).
  { unfold r, bmc_mbox_enqueue.
    mstep. rewrite Hb. do 2 mstep. rewrite Hf.
    change (negb (NULL =? NULL)) with false. cbv iota.
    repeat mstep. reflexivity. }
  rewrite Er, Ef.
  cbn [schedule_timer bind with_mbox emit final fst snd mbox set_poller
       in_flight base poller t_expiry].
  rewrite K1, K2, K3. repeat split.
Qed.

Lemma run_enqueue_busy s msgs :
  base (mbox s) <> 0 ->
  in_flight (mbox s) <> NULL ->
  run (map Op_enqueue msgs) s =
    (map (fun _ => OPAL_BUSY) msgs, s, flat_map (fun _ => busy_events) msgs).
Proof.
  intros Hb Hf. induction msgs as [|msg msgs IH].
  - reflexivity.
  - cbn [map run step flat_map].
    rewrite (bind_eq _ _ _ _ _ _ (enqueue_busy s msg Hb Hf)).
    rewrite (bind_eq _ _ _ _ _ _ IH).
    cbn [ret result final events fst snd]. rewrite app_nil_r.
    reflexivity.
Qed.

(** X15: of a sequence of [bmc_mbox_enqueue] calls made on an idle,
    initialised driver the first is accepted (it returns 0) and all
    others are rejected with OPAL_BUSY; afterwards the slot refers to the
    first message. *)
Lemma first_enqueue_wins s msg msgs :
  base (mbox s) <> 0 ->
  in_flight (mbox s) = NULL ->
  msg <> NULL ->
  let r := run (map Op_enqueue (msg :: msgs)) s in
  result r = 0 :: map (fun _ => OPAL_BUSY) msgs
  /\ in_flight (mbox (final r)) = msg.
Proof.
  intros Hb Hf Hmsg r.
  destruct (enqueue_accepted s msg Hb Hf) as (Hr & Hin & Hbase & _).
  unfold r. cbn [map run step].
  rewrite result_bind, final_bind.
  set (s1 := final (bmc_mbox_enqueue msg s)) in *.
  assert (E : run (map Op_enqueue msgs) s1 =
    (map (fun _ => OPAL_BUSY) msgs, s1, flat_map (fun _ => busy_events) msgs)).
  { apply run_enqueue_busy; congruence. }
  rewrite result_bind, final_bind, E, Hr.
  cbn. split; [reflexivity | exact Hin].
Qed.

(** C1: in every state the driver can reach with a message in flight,
    every [bmc_mbox_enqueue] returns OPAL_BUSY and hands back the machine
    unchanged: the slot still refers to the original message, memory (so
    the message itself) and the registers are as before, and the call's
    events are lock, log, unlock; hence any sequence of such calls is
    rejected call by call and the slot never holds a second message. *)
Theorem enqueue_while_in_flight_is_busy (s : mstate) :
  reachable s ->
  in_flight (mbox s) <> NULL ->
  (forall msg, bmc_mbox_enqueue msg s = (OPAL_BUSY, s, busy_events))
  /\ (forall msgs,
        run (map Op_enqueue msgs) s =
          (map (fun _ => OPAL_BUSY) msgs, s,
           flat_map (fun _ => busy_events) msgs)).
Proof.
  intros Hr Hf.
  assert (Hb : base (mbox s) <> 0) by (apply reachable_slot_inv; assumption).
  split.
  - intros msg. apply enqueue_busy; assumption.
  - intros msgs. apply run_enqueue_busy; assumption.
Qed.

(** *** The delivery mode *)

(** C7: along every run that starts in polling mode ([irq_ok] false),
    [irq_ok] changes its value exactly once if the run contains an
    interrupt, however many, and not at all otherwise; once an interrupt
    has been taken, [irq_ok] is true and stays true through every further
    step (enqueue, timer expiry, initialisation, callback registration,
    interrupts, activity of the BMC), with no further change. *)
Theorem mode_switches_once_and_never_reverts (ops more : list op) (s : mstate) :
  irq_ok (mbox s) = false ->
  mode_switches ops s = (if existsb is_irq_op ops then 1%nat else O)
  /\ irq_ok (mbox (final (run ops s))) = existsb is_irq_op ops
  /\ (existsb is_irq_op ops = true ->
      irq_ok (mbox (final (run more (final (run ops s))))) = true
      /\ mode_switches more (final (run ops s)) = O).
Proof.
  intros H0. rewrite mode_switches_count, run_irq_ok, H0.
  repeat split.
  - rewrite run_irq_ok, run_irq_ok, H0, H. reflexivity.
  - rewrite mode_switches_count, run_irq_ok, H0, H. reflexivity.
Qed.

(** *** Initialisation *)

(** C9: after a first [mbox_init] that got past all its checks and
    recorded a base, a second [mbox_init], whatever the device tree then
    says, only logs the duplicate call: it hands back the machine
    unchanged and touches no register. *)
Theorem second_init_is_rejected (env1 env2 : boot_env) (s : mstate) :
  base (mbox s) = 0 ->
  init_inputs_ok env1 s = true ->
  dt_io_base env1 <> 0 ->
  let s1 := final (mbox_init env1 s) in
  base (mbox s1) = dt_io_base env1
  /\ mbox_init env2 s1 =
       (tt, s1, [EvLog PR_ERR "Duplicate call to mbox_init()" []])
  /\ filter is_io (events (mbox_init env2 s1)) = [].
Proof.
  intros Hb Hok Hio s1.
  destruct (mbox_init_succeeds env1 s Hb Hok) as (Hm & _).
  fold s1 in Hm.
  assert (Hb1 : base (mbox s1) = dt_io_base env1) by (rewrite Hm; reflexivity).
  assert (E : mbox_init env2 s1 =
       (tt, s1, [EvLog PR_ERR "Duplicate call to mbox_init()" []])).
  { apply mbox_init_duplicate. rewrite Hb1. exact Hio. }
  repeat split; [exact Hb1 | exact E | rewrite E; reflexivity].
Qed.

(** C8 (as the code has it): a successful [mbox_init] records the
    register base and initialises the poller with [mbox_poll] as its
    handler, but requests no run of it: no schedule_timer call is made,
    no request is pending afterwards, and an expiry of the timer core
    finds nothing to run. *)
Theorem init_records_base_and_leaves_poller_idle (env : boot_env) (s : mstate) :
  base (mbox s) = 0 ->
  init_inputs_ok env s = true ->
  let r := mbox_init env s in
  base (mbox (final r)) = dt_io_base env
  /\ poller (mbox (final r)) = {| t_target := true; t_expiry := None |}
  /\ In EvInitTimer (events r)
  /\ filter is_schedule (events r) = []
  /\ timer_expire (final r) = (tt, final r, []).
Proof.
  intros Hb Hok r.
  destruct (mbox_init_succeeds env s Hb Hok) as (Hm & _ & Hs & _ & _ & Ht).
  fold r in Hm, Hs, Ht.
  repeat split; try assumption; try (rewrite Hm; reflexivity).
  unfold timer_expire, bind, gets. rewrite Hm. reflexivity.
Qed.

(** *** The message codec *)

(** C6: with the data registers below the status registers, sending the
    message at [p] (byte [i] goes to data register [i]) and then
    receiving into [q] (data register [i] goes to byte [i]) leaves at [q]
    exactly the BMC_MBOX_DATA_REGS bytes that were at [p]. *)
Theorem codec_round_trip (s : mstate) (p q : Z) :
  io_base (lpc s) = base (mbox s) ->
  BMC_MBOX_DATA_REGS <= MBOX_STATUS_0 ->
  let s1 := final (bmc_mbox_send_message p s) in
  let s2 := final (bmc_mbox_recv_message q s1) in
  (forall i, 0 <= i < BMC_MBOX_DATA_REGS ->
     u8 (io_regs (lpc s1) i) = u8 (mem s (p + i)))
  /\ (forall i, 0 <= i < BMC_MBOX_DATA_REGS ->
        mem s2 (q + i) = u8 (io_regs (lpc s1) i))
  /\ read_bytes (mem s2) q BMC_MBOX_DATA_REGS
     = read_bytes (mem s) p BMC_MBOX_DATA_REGS.
Proof.
  intros Hat HN s1 s2.
  destruct (Z_lt_le_dec BMC_MBOX_DATA_REGS 0) as [Hneg|Hpos].
  - repeat split; try (intros; lia).
    unfold read_bytes.
    replace (Z.to_nat BMC_MBOX_DATA_REGS) with O by lia. reflexivity.
  - destruct (send_message_regs p s Hat (conj Hpos HN))
      as (Hm1 & Hmem1 & Hio1 & Hregs).
    fold s1 in Hm1, Hmem1, Hio1, Hregs.
    assert (Hat1 : io_base (lpc s1) = base (mbox s1)) by congruence.
    assert (HN' : 0 <= BMC_MBOX_DATA_REGS <= MBOX_IO_COUNT)
      by (unfold MBOX_STATUS_0, MBOX_IO_COUNT in *; lia).
    destruct (recv_message_mem q s1 Hat1 HN') as (_ & _ & Hin & _).
    fold s2 in Hin.
    repeat split; try assumption.
    apply read_bytes_ext. intros i Hi.
    rewrite Hin, u8_u8 by exact Hi. apply Hregs. exact Hi.
Qed.

(** *** Completion *)

(** C4: let the driver sit on the block, the response bit be set, a
    message be in flight and a callback be registered.  One pass of
    [mbox_poll] then leaves the response bit clear, has copied data
    register [i] into byte [i] of the in-flight message, has made exactly
    one upcall, to the registered callback with this message (holding the
    decoded bytes) and the registered context, and has emptied the slot;
    a second pass right after it makes no upcall. *)
Theorem response_is_delivered_exactly_once (s : mstate) :
  io_base (lpc s) = base (mbox s) ->
  0 <= BMC_MBOX_DATA_REGS <= MBOX_STATUS_0 ->
  response_bit s = true ->
  in_flight (mbox s) <> NULL ->
  callback (mbox s) <> NULL ->
  let msg := in_flight (mbox s) in
  let r := mbox_poll s in
  response_bit (final r) = false
  /\ (forall i, 0 <= i < BMC_MBOX_DATA_REGS ->
        mem (final r) (msg + i) = u8 (io_regs (lpc s) i))
  /\ filter is_callback (events r) =
       [EvCallback (callback (mbox s)) msg (drv_data (mbox s))
          (read_bytes (mem (final r)) msg BMC_MBOX_DATA_REGS)]
  /\ in_flight (mbox (final r)) = NULL
  /\ filter is_callback (events (mbox_poll (final r))) = [].
Proof.
  intros Hat HN Hbit Hf Hcb msg r.
  destruct (poll_response_delivers s Hbit Hf)
    as (st & evs & E & Hm & Hl & Hmem & Hs & Hc).
  fold msg in Hmem, Hc.
  set (sa := final (bmc_mbox_outb MBOX_CTRL_INT_STATUS MBOX_HOST_CTRL s)) in *.
  set (sb := final (bmc_mbox_recv_message msg sa)) in *.
  destruct (poll_after_response s st evs E)
    as (st' & evs' & E' & Hb' & Hf' & _ & _ & Hmem' & Hio' & Hc' & _ & Hregs').
  assert (Hsa_io : io_base (lpc sa) = io_base (lpc s))
    by (unfold sa; cbn; apply io_base_outb).
  assert (Hat_st : io_base (lpc st) = base (mbox st))
    by (rewrite Hl, Hm, Hsa_io; exact Hat).
  assert (Hat' : io_base (lpc st') = base (mbox st')) by congruence.
  assert (Hclear : response_bit st' = false).
  { rewrite response_bit_attached by exact Hat'.
    rewrite Hregs' by (exact Hat_st || (vm_compute; discriminate)).
    rewrite Hl. unfold sa. cbn [bmc_mbox_outb final fst snd lpc].
    rewrite outb_attached by (try congruence; vm_compute; reflexivity).
    cbn [io_regs]. change (u8 MBOX_HOST_CTRL) with MBOX_HOST_CTRL.
    rewrite upd_same, w1c_clears_response. reflexivity. }
  assert (Hdec : forall i, 0 <= i < BMC_MBOX_DATA_REGS ->
                           mem st' (msg + i) = u8 (io_regs (lpc s) i)).
  { intros i Hi. rewrite Hmem', Hmem.
    assert (Hat_sa : io_base (lpc sa) = base (mbox sa))
      by (rewrite Hsa_io; exact Hat).
    assert (HN' : 0 <= BMC_MBOX_DATA_REGS <= MBOX_IO_COUNT)
      by (unfold MBOX_STATUS_0, MBOX_IO_COUNT in *; lia).
    destruct (recv_message_mem msg sa Hat_sa HN') as (_ & _ & Hin & _).
    fold sb in Hin. rewrite Hin by exact Hi.
    unfold sa. cbn [bmc_mbox_outb final fst snd lpc].
    rewrite io_regs_outb_other; [reflexivity | exact Hat |].
    vm_compute (u8 MBOX_HOST_CTRL). unfold MBOX_STATUS_0 in HN. lia. }
  assert (E2 : filter is_callback (events (mbox_poll st')) = []).
  { destruct (poll_after_response st' st' _ (poll_response_idle st' Hclear))
      as (st2 & evs2 & E2 & _ & _ & _ & _ & _ & _ & Hc2 & _).
    rewrite E2. unfold events. cbn [snd].
    rewrite !filter_app, Hc2. reflexivity. }
  unfold r. rewrite E'. unfold final, events. cbn [fst snd].
  repeat split; try assumption.
  - rewrite !filter_app, Hc, Hc'. cbn [filter is_callback app].
    apply Z.eqb_neq in Hcb. rewrite Hcb. rewrite Hmem', Hmem. reflexivity.
  - rewrite Hf', Hm. reflexivity.
Qed.

End Properties.

(** ** The statements on the concrete machine *)

Lemma enqueue_without_init_witness :
  base (mbox (boot bus0 mem0)) = 0
  /\ @bmc_mbox_enqueue skiboot_platform 0x2000 (boot bus0 mem0) =
       (@OPAL_WRONG_STATE skiboot_platform, boot bus0 mem0,
        [EvLog PR_CRIT "Using MBOX without init!" []]).
Proof.
  assert (H0 : base (mbox (boot bus0 mem0)) = 0) by reflexivity.
  pose proof (@enqueue_without_init skiboot_platform (boot bus0 mem0) 0x2000 H0)
    as [H _].
  exact (conj H0 H).
Defined.

Lemma enqueue_while_in_flight_is_busy_witness :
  let s := final (@run skiboot_platform [Op_init env0; Op_enqueue 0x2000]
                       (boot bus0 mem0)) in
  in_flight (mbox s) = 0x2000
  /\ @bmc_mbox_enqueue skiboot_platform 0x3000 s
     = (@OPAL_BUSY skiboot_platform, s, busy_events).
Proof.
  intros s.
  assert (Hr : @reachable skiboot_platform s)
    by (apply reachable_run, reach_boot).
  assert (Hin : in_flight (mbox s) = 0x2000) by (vm_compute; reflexivity).
  assert (Hf : in_flight (mbox s) <> NULL) by (vm_compute; discriminate).
  pose proof (@enqueue_while_in_flight_is_busy skiboot_platform s Hr Hf)
    as [H _].
  exact (conj Hin (H 0x3000)).
Defined.

Lemma mode_switches_once_and_never_reverts_witness :
  @mode_switches skiboot_platform
     [Op_init env0; Op_irq; Op_enqueue 0x2000; Op_irq] (boot bus0 mem0) = 1%nat.
Proof.
  assert (H0 : irq_ok (mbox (boot bus0 mem0)) = false) by reflexivity.
  pose proof (@mode_switches_once_and_never_reverts skiboot_platform
           [Op_init env0; Op_irq; Op_enqueue 0x2000; Op_irq] []
           (boot bus0 mem0) H0) as [H _].
  exact H.
Defined.

Lemma second_init_is_rejected_witness :
  let s1 := final (@mbox_init skiboot_platform env0 (boot bus0 mem0)) in
  @mbox_init skiboot_platform env0 s1 =
    (tt, s1, [EvLog PR_ERR "Duplicate call to mbox_init()" []]).
Proof.
  assert (H0 : base (mbox (boot bus0 mem0)) = 0) by reflexivity.
  assert (H1 : @init_inputs_ok skiboot_platform env0 (boot bus0 mem0) = true)
    by (vm_compute; reflexivity).
  assert (H2 : dt_io_base env0 <> 0) by (vm_compute; discriminate).
  pose proof (@second_init_is_rejected skiboot_platform env0 env0
                (boot bus0 mem0) H0 H1 H2) as H.
  cbv zeta in H. destruct H as (_ & H & _).
  exact H.
Defined.

Lemma init_records_base_and_leaves_poller_idle_witness :
  base (mbox (final (@mbox_init skiboot_platform env0 (boot bus0 mem0))))
  = dt_io_base env0.
Proof.
  assert (H0 : base (mbox (boot bus0 mem0)) = 0) by reflexivity.
  assert (H1 : @init_inputs_ok skiboot_platform env0 (boot bus0 mem0) = true)
    by (vm_compute; reflexivity).
  pose proof (@init_records_base_and_leaves_poller_idle skiboot_platform env0
                (boot bus0 mem0) H0 H1) as H.
  cbv zeta in H. destruct H as (H & _).
  exact H.
Defined.

(** The driver's own test for being initialised is [mbox.base != 0]: an
    [mbox_init] that is handed I/O base 0 runs through, but leaves the
    driver uninitialised by that test, and [bmc_mbox_enqueue] keeps
    answering OPAL_WRONG_STATE.  This is why the statement above asks for
    a base that is set. *)
Example init_with_base_zero_leaves_driver_uninitialised :
  let r := @mbox_init skiboot_platform env_base0 (boot bus0 mem0) in
  @init_inputs_ok skiboot_platform env_base0 (boot bus0 mem0) = true
  /\ base (mbox (final r)) = 0
  /\ result (@bmc_mbox_enqueue skiboot_platform 0x2000 (final r))
     = @OPAL_WRONG_STATE skiboot_platform.
Proof. vm_compute. repeat split. Qed.

(** C8 as stated fails: on the concrete machine [mbox_init] succeeds and
    records the base, yet it makes no schedule_timer call and leaves no
    request pending, so the timer core never runs the detector: without
    an enqueue or an interrupt no pass takes place. *)
Lemma init_does_not_arm_the_poller :
  let r := @mbox_init skiboot_platform env0 (boot bus0 mem0) in
  @init_inputs_ok skiboot_platform env0 (boot bus0 mem0) = true
  /\ base (mbox (final r)) = 0x1000
  /\ t_expiry (poller (mbox (final r))) = None
  /\ t_expiry (poller (mbox (final r)))
     <> Some (@poll_cadence skiboot_platform false)
  /\ filter is_schedule (events r) = []
  /\ events (@run skiboot_platform [Op_timer; Op_timer; Op_timer] (final r))
     = [].
Proof.
  vm_compute. repeat split. discriminate.
Qed.

Lemma codec_round_trip_witness :
  let s := final (@mbox_init skiboot_platform env0 (boot bus0 mem1)) in
  let s1 := final (@bmc_mbox_send_message skiboot_platform 0x2000 s) in
  let s2 := final (@bmc_mbox_recv_message skiboot_platform 0x3000 s1) in
  read_bytes (mem s2) 0x3000 (@BMC_MBOX_DATA_REGS skiboot_platform)
  = read_bytes (mem s) 0x2000 (@BMC_MBOX_DATA_REGS skiboot_platform).
Proof.
  intros s.
  assert (H0 : io_base (lpc s) = base (mbox s)) by (vm_compute; reflexivity).
  assert (H1 : @BMC_MBOX_DATA_REGS skiboot_platform <= MBOX_STATUS_0)
    by (vm_compute; discriminate).
  pose proof (@codec_round_trip skiboot_platform s 0x2000 0x3000 H0 H1) as H.
  cbv zeta in H. destruct H as (_ & _ & H).
  exact H.
Defined.

Lemma response_is_delivered_exactly_once_witness :
  response_bit pending_state = true
  /\ in_flight (mbox pending_state) = 0x2000
  /\ in_flight (mbox (final (@mbox_poll skiboot_platform pending_state)))
     = NULL.
Proof.
  assert (H0 : io_base (lpc pending_state) = base (mbox pending_state))
    by (vm_compute; reflexivity).
  assert (H1 : 0 <= @BMC_MBOX_DATA_REGS skiboot_platform <= MBOX_STATUS_0)
    by (vm_compute; split; discriminate).
  assert (H2 : response_bit pending_state = true) by (vm_compute; reflexivity).
  assert (H3 : in_flight (mbox pending_state) = 0x2000)
    by (vm_compute; reflexivity).
  assert (H4 : in_flight (mbox pending_state) <> NULL)
    by (vm_compute; discriminate).
  assert (H5 : callback (mbox pending_state) <> NULL)
    by (vm_compute; discriminate).
  pose proof (@response_is_delivered_exactly_once skiboot_platform
                pending_state H0 H1 H2 H4 H5) as H.
  cbv zeta in H. destruct H as (_ & _ & _ & H & _).
  exact (conj H2 (conj H3 H)).
Defined.

(** The exchange of the scenario, evaluated: the upcall gets the eight
    bytes the BMC wrote (and zeros up to the message size), and
    afterwards the next message is accepted. *)
Example exchange_scenario :
  let r := @mbox_poll skiboot_platform pending_state in
  filter is_callback (events r) =
    [EvCallback 0x4000 0x2000 0x5000 [1; 2; 3; 4; 5; 6; 7; 8; 0; 0; 0; 0; 0; 0]]
  /\ result (@bmc_mbox_enqueue skiboot_platform 0x3000 (final r)) = 0.
Proof. vm_compute. split; reflexivity. Qed.

(** C2 (the code departs from it): in [violation_state] the slot is
    empty and both the response bit and the attention bit are set.  The
    pass reads and writes the host control register and nothing else: the
    second status register is neither read nor written, and the attention
    bit is still set when the pass is over. *)
Theorem attention_skipped_after_unexpected_response :
  let s := violation_state in
  let r := @mbox_poll skiboot_platform s in
  in_flight (mbox s) = NULL
  /\ response_bit s = true
  /\ attention_bit s = true
  /\ filter is_io (events r) = [EvInb 0x1013 0x80; EvOutb 0x80 0x1013]
  /\ attention_bit (final r) = true.
Proof. vm_compute. repeat split. Qed.

(** C3 (the code departs from it): in [violation_state] the poller is
    armed on the poll cadence.  The pass its expiry runs finds the
    response bit set with the slot empty and returns without a
    schedule_timer call: no request is pending afterwards, and further
    expiries of the timer core run nothing. *)
Theorem rearm_skipped_after_unexpected_response :
  let s := violation_state in
  let r := @step skiboot_platform Op_timer s in
  t_expiry (poller (mbox s)) = Some (@poll_cadence skiboot_platform false)
  /\ in_flight (mbox s) = NULL
  /\ response_bit s = true
  /\ filter is_schedule (events r) = []
  /\ t_expiry (poller (mbox (final r))) = None
  /\ events (@run skiboot_platform [Op_timer; Op_timer] (final r)) = [].
Proof. vm_compute. repeat split. Qed.

(** ** The remaining paths of the driver *)

Ltac mwalk :=
  (rewrite final_bind || rewrite result_bind || rewrite events_bind);
  cbn [gets emit prlog lock unlock lpc_ok lpc_present ret
       result final events fst snd app].

Section Codec.
Context {P : Platform}.

(** A loop whose body emits one event per round and keeps [I]. *)
Lemma for_loop_events (I : mstate -> Prop) (ev : Z -> event) body n :
  (forall j s', I s' -> events (body j s') = [ev j] /\ I (final (body j s'))) ->
  forall i s, I s ->
    events (for_loop n i body s)
    = map (fun k => ev (i + Z.of_nat k)) (List.seq 0 n)
    /\ I (final (for_loop n i body s)).
Proof.
  intros Hb. induction n as [|n IH]; intros i s Hs.
  - split; [reflexivity | exact Hs].
  - cbn [for_loop]. rewrite events_bind, final_bind.
    destruct (Hb i s Hs) as [He Hi].
    destruct (IH (i + 1) _ Hi) as [He' Hi'].
    split; [|exact Hi'].
    rewrite He, He'. cbn [List.seq map app].
    rewrite <- seq_shift, map_map. f_equal.
    + f_equal. lia.
    + apply map_ext. intros k. f_equal. lia.
Qed.

Lemma lpc_inb_byte d a : u8 (lpc_inb d a) = lpc_inb d a.
Proof.
  unfold lpc_inb. destruct (_ <? _); [apply u8_u8 | reflexivity].
Qed.

Lemma send_loop p s :
  let r := for_loop (Z.to_nat BMC_MBOX_DATA_REGS) 0
             (fun i => b <- load_u8 (p + i);; bmc_mbox_outb b i) s in
  events r = data_writes (base (mbox s)) (mem s) p BMC_MBOX_DATA_REGS
  /\ mbox (final r) = mbox s
  /\ mem (final r) = mem s.
Proof.
  cbv zeta.
  destruct (for_loop_events
              (fun s' => mbox s' = mbox s /\ mem s' = mem s)
              (fun j => EvOutb (u8 (mem s (p + j))) (u32 (base (mbox s) + u8 j)))
              (fun i => b <- load_u8 (p + i);; bmc_mbox_outb b i)
              (Z.to_nat BMC_MBOX_DATA_REGS)) with (i := 0) (s := s)
    as [He [Hm Hmem]].
  - intros j s' [Hm Hmem]. rewrite events_bind, final_bind.
    cbn [load_u8 bmc_mbox_outb result final events fst snd app mbox mem].
    rewrite Hm, Hmem, u8_u8. repeat split; assumption.
  - split; reflexivity.
  - repeat split; assumption.
Qed.

Lemma send_message_run (p : Z) (s : mstate) :
  let r := bmc_mbox_send_message p s in
  events r =
    (if bus_ok (lpc s) then [] else [EvLog PR_ERR "LPC isn't ok" []])
    ++ data_writes (base (mbox s)) (mem s) p BMC_MBOX_DATA_REGS
    ++ [EvLog PR_DEBUG "Sending BMC interrupt" []; doorbell (base (mbox s))]
  /\ mbox (final r) = mbox s
  /\ mem (final r) = mem s.
Proof.
  cbv zeta.
  assert (E0 : forall s0 : mstate,
    (if negb (bus_ok (lpc s0))
     then prlog PR_ERR "LPC isn't ok" [] else ret tt) s0
    = (tt, s0, if bus_ok (lpc s0) then []
               else [EvLog PR_ERR "LPC isn't ok" []]))
    by (intros s0; destruct (bus_ok (lpc s0)); reflexivity).
  destruct (send_loop p s) as (He & Hm & Hmem).
  unfold bmc_mbox_send_message.
  repeat split.
  - mwalk. rewrite ?events_bind, ?final_bind, E0.
    cbn [final events fst snd]. f_equal.
    rewrite ?events_bind, ?final_bind, He. f_equal.
    cbn [prlog emit bmc_mbox_outb result final events fst snd app mbox].
    rewrite Hm. reflexivity.
  - mwalk. rewrite ?final_bind, E0. cbn [final fst snd].
    rewrite ?final_bind.
    cbn [prlog emit bmc_mbox_outb result final fst snd mbox]. exact Hm.
  - mwalk. rewrite ?final_bind, E0. cbn [final fst snd].
    rewrite ?final_bind.
    cbn [prlog emit bmc_mbox_outb result final fst snd mem]. exact Hmem.
Qed.

Lemma recv_message_run (q : Z) (s : mstate) :
  let r := bmc_mbox_recv_message q s in
  events r = data_reads (lpc s) (base (mbox s)) BMC_MBOX_DATA_REGS
  /\ mbox (final r) = mbox s
  /\ lpc (final r) = lpc s
  /\ (forall i, 0 <= i < BMC_MBOX_DATA_REGS ->
        mem (final r) (q + i) = lpc_inb (lpc s) (u32 (base (mbox s) + u8 i)))
  /\ (forall a, ~ (q <= a < q + BMC_MBOX_DATA_REGS) ->
        mem (final r) a = mem s a).
Proof.
  cbv zeta. unfold bmc_mbox_recv_message.
  set (body := fun i => v <- bmc_mbox_inb i;; store_u8 (q + i) v).
  destruct (for_loop_events
              (fun s' => mbox s' = mbox s /\ lpc s' = lpc s)
              (fun j => EvInb (u32 (base (mbox s) + u8 j))
                              (lpc_inb (lpc s) (u32 (base (mbox s) + u8 j))))
              body (Z.to_nat BMC_MBOX_DATA_REGS)) with (i := 0) (s := s)
    as [He [Hm Hl]].
  { intros j s' [Hm Hl]. unfold body. rewrite events_bind, final_bind.
    cbn [bmc_mbox_inb store_u8 result final events fst snd app mbox lpc].
    rewrite Hm, Hl. repeat split. }
  { split; reflexivity. }
  split; [exact He|]. split; [exact Hm|]. split; [exact Hl|].
  destruct (Z_lt_le_dec BMC_MBOX_DATA_REGS 0) as [Hneg|Hpos].
  { replace (Z.to_nat BMC_MBOX_DATA_REGS) with O by lia.
    split; [intros; lia | reflexivity]. }
  set (Inv := fun (j : Z) (s' : mstate) =>
    mbox s' = mbox s /\ lpc s' = lpc s
    /\ (forall i, 0 <= i < j ->
          mem s' (q + i) = lpc_inb (lpc s) (u32 (base (mbox s) + u8 i)))
    /\ (forall a, ~ (q <= a < q + j) -> mem s' a = mem s a)).
  assert (L : Inv (0 + Z.of_nat (Z.to_nat BMC_MBOX_DATA_REGS))
                (final (for_loop (Z.to_nat BMC_MBOX_DATA_REGS) 0 body s))).
  { apply for_loop_inv.
    - unfold Inv. repeat split. intros i Hi. lia.
    - intros j s' Hj (Hm' & Hl' & Hin & Hout).
      unfold body. rewrite final_bind.
      cbn [bmc_mbox_inb store_u8 result final fst snd mbox mem lpc].
      rewrite Hm', Hl'. unfold Inv. cbn [mbox mem lpc].
      repeat split; try assumption.
      + intros i Hi. rewrite lpc_inb_byte.
        destruct (Z.eq_dec i j) as [->|Hne].
        * now rewrite upd_same.
        * rewrite upd_other by lia. apply Hin. lia.
      + intros a Ha. rewrite upd_other by lia. apply Hout. lia. }
  rewrite Z2Nat.id in L by lia. destruct L as (_ & _ & Hin & Hout).
  split; assumption.
Qed.

(** X2: the port traffic of [bmc_mbox_send_message], in full and in every
    state: an error line first if lpc_ok() fails, which does not stop the
    transmission; then byte [k] of the message to data register [k], for
    [k] from 0 up to BMC_MBOX_DATA_REGS; then the debug line and, last,
    MBOX_CTRL_INT_SEND to the host control register.  Nothing is read
    from a port, and neither memory nor the driver record changes. *)
Theorem send_message_trace (p : Z) (s : mstate) :
  let r := bmc_mbox_send_message p s in
  events r =
    (if bus_ok (lpc s) then [] else [EvLog PR_ERR "LPC isn't ok" []])
    ++ data_writes (base (mbox s)) (mem s) p BMC_MBOX_DATA_REGS
    ++ [EvLog PR_DEBUG "Sending BMC interrupt" []; doorbell (base (mbox s))]
  /\ mbox (final r) = mbox s
  /\ mem (final r) = mem s.
Proof. exact (send_message_run p s). Qed.

(** X3: [bmc_mbox_recv_message], in every state: it reads data register
    [k] for [k] from 0 up to BMC_MBOX_DATA_REGS, in this order, and
    writes no port; byte [k] of the message becomes what was read from
    register [k]; memory outside the message, the registers and the
    driver record are unchanged. *)
Theorem recv_message_effect (q : Z) (s : mstate) :
  let r := bmc_mbox_recv_message q s in
  events r = data_reads (lpc s) (base (mbox s)) BMC_MBOX_DATA_REGS
  /\ mbox (final r) = mbox s
  /\ lpc (final r) = lpc s
  /\ (forall i, 0 <= i < BMC_MBOX_DATA_REGS ->
        mem (final r) (q + i) = lpc_inb (lpc s) (u32 (base (mbox s) + u8 i)))
  /\ (forall a, ~ (q <= a < q + BMC_MBOX_DATA_REGS) ->
        mem (final r) a = mem s a).
Proof. exact (recv_message_run q s). Qed.

Lemma filter_map_none (f : event -> bool) (g : nat -> event) l :
  (forall k, f (g k) = false) -> filter f (map g l) = [].
Proof.
  intros H. induction l as [|k l IH]; cbn; [reflexivity|].
  now rewrite H.
Qed.

Lemma filter_map_all (f : event -> bool) (g : nat -> event) l :
  (forall k, f (g k) = true) -> filter f (map g l) = map g l.
Proof.
  intros H. induction l as [|k l IH]; cbn; [reflexivity|].
  now rewrite H, IH.
Qed.

(** An accepted [bmc_mbox_enqueue], event by event. *)
Lemma enqueue_accepted_events s msg :
  base (mbox s) <> 0 ->
  in_flight (mbox s) = NULL ->
  let r := bmc_mbox_enqueue msg s in
  events r =
    [EvLock; EvUnlock]
    ++ (if bus_ok (lpc s) then [] else [EvLog PR_ERR "LPC isn't ok" []])
    ++ data_writes (base (mbox s)) (mem s) msg BMC_MBOX_DATA_REGS
    ++ [EvLog PR_DEBUG "Sending BMC interrupt" []; doorbell (base (mbox s));
        EvScheduleTimer (poll_cadence (irq_ok (mbox s)))]
  /\ mem (final r) = mem s.
Proof.
  intros Hb Hf. apply Z.eqb_neq in Hb. cbv zeta.
  set (s0 := final (with_mbox (set_in_flight msg) s)).
  destruct (send_message_run msg s0) as (He & Hm & Hmem).
  unfold bmc_mbox_enqueue. split.
  - mwalk. rewrite Hb. do 2 mwalk. rewrite Hf.
    change (negb (NULL =? NULL)) with false. cbv iota.
    mwalk. fold s0. change (events (with_mbox (set_in_flight msg) s)) with (@nil event).
    cbn [app]. mwalk. mwalk. rewrite He. mwalk.
    rewrite Hm. mwalk.
    cbn [schedule_timer bind with_mbox emit events snd app].
    cbn [s0 with_mbox final fst snd mbox lpc mem set_in_flight base irq_ok].
    rewrite <- !app_assoc. reflexivity.
  - mwalk. rewrite Hb. do 2 mwalk. rewrite Hf.
    change (negb (NULL =? NULL)) with false. cbv iota.
    mwalk. fold s0. repeat mwalk.
    cbn [schedule_timer bind with_mbox emit final fst snd mem].
    rewrite Hmem. reflexivity.
Qed.

End Codec.

Section Passes.
Context {P : Platform}.

(** The timer requests of a pass: none when the response bit is set with
    the slot empty, else one, on the cadence of the current mode. *)
Lemma poll_schedule_events s :
  filter is_schedule (events (mbox_poll s)) =
  if response_bit s && (in_flight (mbox s) =? NULL) then []
  else [EvScheduleTimer (poll_cadence (irq_ok (mbox s)))].
Proof.
  destruct (response_bit s) eqn:Hbit; cbn [andb].
  - destruct (in_flight (mbox s) =? NULL) eqn:Hf.
    + apply Z.eqb_eq in Hf. rewrite (poll_returns_early s Hbit Hf).
      reflexivity.
    + apply Z.eqb_neq in Hf.
      destruct (poll_response_delivers s Hbit Hf)
        as (st & evs & E & Hm & _ & _ & Hs & _).
      destruct (poll_after_response s st evs E)
        as (st' & evs' & E' & _ & _ & _ & _ & _ & _ & _ & Hs' & _).
      rewrite E'. unfold events. cbn [snd].
      rewrite !filter_app, Hs, Hs', Hm. reflexivity.
  - destruct (poll_after_response s s _ (poll_response_idle s Hbit))
      as (st' & evs' & E' & _ & _ & _ & _ & _ & _ & _ & Hs' & _).
    rewrite E'. unfold events. cbn [snd].
    rewrite !filter_app, Hs'. reflexivity.
Qed.

(** The events of the attention check on a set bit. *)
Lemma poll_attention_events s :
  attention_bit s = true ->
  let a1 := u32 (base (mbox s) + u8 MBOX_STATUS_1) in
  let af := u32 (base (mbox s) + u8 MBOX_FLAG_REG) in
  let d := lpc_outb (lpc s) (u8 MBOX_STATUS_ATTN) a1 in
  let action := lpc_inb d af in
  let rest := if negb (Z.land action BMC_RESET =? 0)
              then u8 (Z.land action (Z.lnot BMC_RESET)) else action in
  events (mbox_poll_attention s) =
    [EvInb a1 (lpc_inb (lpc s) a1); EvOutb (u8 MBOX_STATUS_ATTN) a1;
     EvInb af action;
     EvLog PR_INSANE "Got a status register interrupt with action 0x%02x"
           [action]]
    ++ (if negb (Z.land action BMC_RESET =? 0)
        then [EvLog PR_WARNING "BMC reset detected" []] else [])
    ++ (if negb (rest =? 0)
        then [EvLog PR_ERR "Got a status bit set that don't know about: 0x%02x"
                    [rest]]
        else [])
  /\ lpc (final (mbox_poll_attention s)) = d.
Proof.
  intros Hbit. unfold attention_bit in Hbit.
  cbn [bmc_mbox_inb result fst] in Hbit. cbv zeta.
  unfold mbox_poll_attention. split.
  - mwalk. cbn [bmc_mbox_inb result final events fst snd app].
    rewrite Hbit. mwalk.
    cbn [bmc_mbox_outb bmc_mbox_inb result final events fst snd app mbox lpc].
    do 2 mwalk.
    cbn [bmc_mbox_outb bmc_mbox_inb result final events fst snd app mbox lpc].
    mwalk.
    destruct (negb (Z.land _ BMC_RESET =? 0)); repeat mwalk;
      cbn [ret result final events fst snd app];
      match goal with |- context [negb (?a =? 0)] =>
        destruct (negb (a =? 0)) end; reflexivity.
  - mwalk. cbn [bmc_mbox_inb result final fst snd]. rewrite Hbit.
    do 3 mwalk. cbn [bmc_mbox_outb bmc_mbox_inb result final fst snd mbox lpc].
    mwalk.
    destruct (negb (Z.land _ BMC_RESET =? 0)); repeat mwalk;
      cbn [ret result final fst snd];
      match goal with |- context [negb (?a =? 0)] =>
        destruct (negb (a =? 0)) end; reflexivity.
Qed.

Lemma poll_response_null_callback_log s :
  response_bit s = true ->
  in_flight (mbox s) <> NULL ->
  callback (mbox s) = NULL ->
  In (EvLog PR_ERR "Detected NULL callback for mbox message" [])
     (events (mbox_poll_response s)).
Proof.
  intros Hbit Hf Hcb.
  unfold response_bit in Hbit. cbn [bmc_mbox_inb result fst] in Hbit.
  apply Z.eqb_neq in Hf.
  unfold mbox_poll_response.
  mwalk. cbn [bmc_mbox_inb result final events fst snd app]. rewrite Hbit.
  do 3 mwalk. cbn [bmc_mbox_outb result final events fst snd app mbox].
  rewrite Hf. do 2 mwalk.
  match goal with |- context [bmc_mbox_recv_message _ ?st] =>
    set (sa := st) end.
  destruct (recv_message_frame (in_flight (mbox s)) sa)
    as (s1 & t1 & E & Hm1 & _).
  rewrite E. cbn [final events fst snd].
  rewrite Hm1. change (mbox sa) with (mbox s). rewrite Hcb.
  change (negb (NULL =? NULL)) with false. cbv iota.
  mwalk. do 3 apply in_cons. apply in_or_app. right. left. reflexivity.
Qed.

(** The events of a response check that delivers. *)
Lemma poll_response_delivers_events s :
  response_bit s = true ->
  in_flight (mbox s) <> NULL ->
  let msg := in_flight (mbox s) in
  let sa := final (bmc_mbox_outb MBOX_CTRL_INT_STATUS MBOX_HOST_CTRL s) in
  let sb := final (bmc_mbox_recv_message msg sa) in
  events (mbox_poll_response s) =
    [EvInb (u32 (base (mbox s) + u8 MBOX_HOST_CTRL))
           (lpc_inb (lpc s) (u32 (base (mbox s) + u8 MBOX_HOST_CTRL)));
     ack_response (base (mbox s));
     EvLog PR_INSANE "Got a regular interrupt" []]
    ++ data_reads (lpc sa) (base (mbox s)) BMC_MBOX_DATA_REGS
    ++ (if callback (mbox s) =? NULL
        then [EvLog PR_ERR "Detected NULL callback for mbox message" []]
        else [EvCallback (callback (mbox s)) msg (drv_data (mbox s))
                (read_bytes (mem sb) msg BMC_MBOX_DATA_REGS)])
    ++ [EvLock; EvUnlock].
Proof.
  intros Hbit Hf. cbv zeta.
  unfold response_bit in Hbit. cbn [bmc_mbox_inb result fst] in Hbit.
  apply Z.eqb_neq in Hf.
  set (sa := final (bmc_mbox_outb MBOX_CTRL_INT_STATUS MBOX_HOST_CTRL s)).
  destruct (recv_message_run (in_flight (mbox s)) sa)
    as (He & Hm & _).
  set (sb := final (bmc_mbox_recv_message (in_flight (mbox s)) sa)) in *.
  unfold mbox_poll_response.
  mwalk. cbn [bmc_mbox_inb result final events fst snd app]. rewrite Hbit.
  mwalk. fold sa.
  change (events (bmc_mbox_outb MBOX_CTRL_INT_STATUS MBOX_HOST_CTRL s))
    with [ack_response (base (mbox s))].
  do 2 mwalk. change (mbox sa) with (mbox s). rewrite Hf.
  mwalk. fold sb. rewrite He. change (mbox sa) with (mbox s).
  cbn [app]. do 4 f_equal.
  mwalk. rewrite Hm. change (mbox sa) with (mbox s).
  mwalk.
  assert (Ecb : forall st : mstate, mem st = mem sb ->
    drv_data (mbox st) = drv_data (mbox s) ->
    events ((if negb (callback (mbox s) =? NULL)
             then priv <- gets drv_data;;
                  call_callback (callback (mbox s)) (in_flight (mbox s)) priv
             else prlog PR_ERR "Detected NULL callback for mbox message" [])
              st)
    = if callback (mbox s) =? NULL
      then [EvLog PR_ERR "Detected NULL callback for mbox message" []]
      else [EvCallback (callback (mbox s)) (in_flight (mbox s))
              (drv_data (mbox s))
              (read_bytes (mem sb) (in_flight (mbox s)) BMC_MBOX_DATA_REGS)]).
  { intros st Hmem Hdd. destruct (callback (mbox s) =? NULL); cbn [negb].
    - reflexivity.
    - mwalk. cbn [call_callback events snd]. rewrite Hmem, Hdd. reflexivity. }
  rewrite (Ecb sb eq_refl (f_equal drv_data Hm)).
  f_equal; repeat mwalk; reflexivity.
Qed.

Lemma lock_trace_app t1 : forall h t2,
  lock_trace h (t1 ++ t2) =
  match lock_trace h t1 with
  | Some h' => lock_trace h' t2
  | None => None
  end.
Proof.
  induction t1 as [|e t1 IH]; intros h t2; [reflexivity|].
  destruct e; cbn [app lock_trace]; destruct h; auto.
Qed.

Lemma lock_trace_free t :
  filter is_lock t = [] -> lock_trace false t = Some false.
Proof.
  induction t as [|e t IH]; intros H; [reflexivity|].
  destruct e; cbn [filter is_lock] in H; try discriminate;
    cbn [lock_trace]; auto.
Qed.

Lemma lock_trace_free_app t1 t2 :
  filter is_lock t1 = [] ->
  lock_trace false (t1 ++ t2) = lock_trace false t2.
Proof.
  intros H. now rewrite lock_trace_app, (lock_trace_free t1 H).
Qed.

Lemma filter_data_reads (f : event -> bool) d b n :
  (forall a v, f (EvInb a v) = false) -> filter f (data_reads d b n) = [].
Proof. intros H. apply filter_map_none. intros k. apply H. Qed.

Lemma filter_data_writes (f : event -> bool) b m p n :
  (forall v a, f (EvOutb v a) = false) -> filter f (data_writes b m p n) = [].
Proof. intros H. apply filter_map_none. intros k. apply H. Qed.

(** A pass whose response check finds the bit clear: the attention
    check, then the timer request. *)
Lemma poll_idle_response_run s :
  response_bit s = false ->
  let r := mbox_poll s in
  let ra := mbox_poll_attention s in
  events r =
    EvInb (u32 (base (mbox s) + u8 MBOX_HOST_CTRL))
          (lpc_inb (lpc s) (u32 (base (mbox s) + u8 MBOX_HOST_CTRL)))
    :: events ra ++ [EvScheduleTimer (poll_cadence (irq_ok (mbox (final ra))))]
  /\ lpc (final r) = lpc (final ra)
  /\ mem (final r) = mem (final ra)
  /\ mbox (final r) =
       set_poller {| t_target := t_target (poller (mbox (final ra)));
                     t_expiry := Some (poll_cadence (irq_ok (mbox (final ra)))) |}
                  (mbox (final ra)).
Proof.
  intros Hbit. cbv zeta. unfold mbox_poll.
  pose proof (poll_response_idle s Hbit) as E.
  repeat split.
  - rewrite events_bind, E. cbn [result final events fst snd app].
    do 2 mwalk. reflexivity.
  - rewrite final_bind, E. cbn [result final fst snd].
    do 2 mwalk. reflexivity.
  - rewrite final_bind, E. cbn [result final fst snd].
    do 2 mwalk. reflexivity.
  - rewrite final_bind, E. cbn [result final fst snd].
    do 2 mwalk. reflexivity.
Qed.

Lemma poll_attention_idle s :
  attention_bit s = false ->
  mbox_poll_attention s =
    (tt, s, [EvInb (u32 (base (mbox s) + u8 MBOX_STATUS_1))
                   (lpc_inb (lpc s) (u32 (base (mbox s) + u8 MBOX_STATUS_1)))]).
Proof.
  unfold attention_bit. cbn [bmc_mbox_inb result fst]. intros H.
  unfold mbox_poll_attention, bind. cbn [bmc_mbox_inb]. rewrite H.
  reflexivity.
Qed.

Lemma filter_data_writes_io b m p n :
  filter is_io (data_writes b m p n) = data_writes b m p n.
Proof. apply filter_map_all. reflexivity. Qed.

Lemma filter_data_writes_schedule b m p n :
  filter is_schedule (data_writes b m p n) = [].
Proof. apply filter_map_none. reflexivity. Qed.

(** X1: an accepted [bmc_mbox_enqueue] (base set, slot empty) returns 0,
    puts the message into the slot, writes the message bytes to the data
    registers and then rings the doorbell (no other port access), makes
    one timer request, on TIMER_POLL if an interrupt has been seen and
    after MBOX_DEFAULT_POLL_MS otherwise, and leaves memory as it was. *)
Theorem enqueue_accepted_sends_and_arms (s : mstate) (msg : Z) :
  base (mbox s) <> 0 ->
  in_flight (mbox s) = NULL ->
  let r := bmc_mbox_enqueue msg s in
  result r = 0
  /\ in_flight (mbox (final r)) = msg
  /\ filter is_io (events r) =
       data_writes (base (mbox s)) (mem s) msg BMC_MBOX_DATA_REGS
       ++ [doorbell (base (mbox s))]
  /\ filter is_schedule (events r) =
       [EvScheduleTimer (poll_cadence (irq_ok (mbox s)))]
  /\ t_expiry (poller (mbox (final r)))
     = Some (poll_cadence (irq_ok (mbox s)))
  /\ mem (final r) = mem s.
Proof.
  intros Hb Hf.
  destruct (enqueue_accepted s msg Hb Hf) as (Hr & Hin & _ & Ht).
  destruct (enqueue_accepted_events s msg Hb Hf) as (He & Hmem).
  cbv zeta in *. rewrite He.
  repeat split; try assumption.
  - rewrite !filter_app, filter_data_writes_io.
    destruct (bus_ok (lpc s)); reflexivity.
  - rewrite !filter_app, filter_data_writes_schedule.
    destruct (bus_ok (lpc s)); reflexivity.
Qed.

(** X4: a response for a message in flight while no callback is
    registered: the pass makes no upcall, logs the NULL callback, empties
    the slot all the same, and re-arms the poller. *)
Theorem response_without_callback_is_dropped (s : mstate) :
  response_bit s = true ->
  in_flight (mbox s) <> NULL ->
  callback (mbox s) = NULL ->
  let r := mbox_poll s in
  filter is_callback (events r) = []
  /\ In (EvLog PR_ERR "Detected NULL callback for mbox message" []) (events r)
  /\ in_flight (mbox (final r)) = NULL
  /\ t_expiry (poller (mbox (final r)))
     = Some (poll_cadence (irq_ok (mbox s))).
Proof.
  intros Hbit Hf Hcb.
  pose proof (poll_response_null_callback_log s Hbit Hf Hcb) as Hlog.
  destruct (poll_response_delivers s Hbit Hf)
    as (st & evs & E & Hm & _ & _ & _ & Hc).
  destruct (poll_after_response s st evs E)
    as (st' & evs' & E' & _ & Hf' & _ & Ht & _ & _ & Hc' & _).
  rewrite E in Hlog. cbn [events snd] in Hlog.
  rewrite Hcb in Hc. cbn [Z.eqb NULL] in Hc.
  cbv zeta. rewrite E'. unfold final, events. cbn [fst snd].
  repeat split.
  - rewrite !filter_app, Hc, Hc'. reflexivity.
  - apply in_or_app. left. exact Hlog.
  - rewrite Hf', Hm. reflexivity.
  - rewrite Ht, Hm. reflexivity.
Qed.

(** X5: a response bit found set while no message is in flight: the pass
    makes no upcall, logs that it could not find the message, writes the
    bit back (which clears it when the driver sits on the block), and
    changes neither memory nor the slot, the base, the callback or its
    context. *)
Theorem unexpected_response_is_absorbed (s : mstate) :
  response_bit s = true ->
  in_flight (mbox s) = NULL ->
  let r := mbox_poll s in
  filter is_callback (events r) = []
  /\ In (EvLog PR_CRIT "Couldn't find the message!!" []) (events r)
  /\ In (EvOutb (u8 MBOX_CTRL_INT_STATUS)
                (u32 (base (mbox s) + u8 MBOX_HOST_CTRL))) (events r)
  /\ in_flight (mbox (final r)) = NULL
  /\ base (mbox (final r)) = base (mbox s)
  /\ callback (mbox (final r)) = callback (mbox s)
  /\ drv_data (mbox (final r)) = drv_data (mbox s)
  /\ mem (final r) = mem s
  /\ (io_base (lpc s) = base (mbox s) -> response_bit (final r) = false).
Proof.
  intros Hbit Hf. cbv zeta.
  set (sa := final (bmc_mbox_outb MBOX_CTRL_INT_STATUS MBOX_HOST_CTRL s)).
  assert (Hclr : io_base (lpc s) = base (mbox s) -> response_bit sa = false).
  { intros Hat.
    assert (Hat' : io_base (lpc sa) = base (mbox sa))
      by (unfold sa; cbn [bmc_mbox_outb final fst snd lpc mbox];
          rewrite io_base_outb; exact Hat).
    rewrite (response_bit_attached sa Hat').
    unfold sa. cbn [bmc_mbox_outb final fst snd lpc].
    rewrite outb_attached by (try congruence; vm_compute; reflexivity).
    cbn [io_regs]. change (u8 MBOX_HOST_CTRL) with MBOX_HOST_CTRL.
    rewrite upd_same, w1c_clears_response. reflexivity. }
  rewrite (poll_returns_early s Hbit Hf). fold sa.
  change (final (tt, sa,
     [EvInb (u32 (base (mbox s) + u8 MBOX_HOST_CTRL))
            (lpc_inb (lpc s) (u32 (base (mbox s) + u8 MBOX_HOST_CTRL)));
      EvOutb (u8 MBOX_CTRL_INT_STATUS) (u32 (base (mbox s) + u8 MBOX_HOST_CTRL));
      EvLog PR_INSANE "Got a regular interrupt" [];
      EvLog PR_CRIT "Couldn't find the message!!" []])) with sa.
  unfold events. cbn [snd filter is_callback In].
  repeat split; auto 10.
Qed.

(** X6: a pass that finds neither bit set reads the host control register
    and the second status register, requests the next run, and does
    nothing else: no port is written, no upcall is made, and registers,
    memory and the driver record (but for the poller) are unchanged. *)
Theorem idle_pass_only_reads (s : mstate) :
  response_bit s = false ->
  attention_bit s = false ->
  let r := mbox_poll s in
  events r =
    [EvInb (u32 (base (mbox s) + u8 MBOX_HOST_CTRL))
           (lpc_inb (lpc s) (u32 (base (mbox s) + u8 MBOX_HOST_CTRL)));
     EvInb (u32 (base (mbox s) + u8 MBOX_STATUS_1))
           (lpc_inb (lpc s) (u32 (base (mbox s) + u8 MBOX_STATUS_1)));
     EvScheduleTimer (poll_cadence (irq_ok (mbox s)))]
  /\ lpc (final r) = lpc s
  /\ mem (final r) = mem s
  /\ mbox (final r) =
       set_poller {| t_target := t_target (poller (mbox s));
                     t_expiry := Some (poll_cadence (irq_ok (mbox s))) |}
                  (mbox s).
Proof.
  intros Hr Ha.
  destruct (poll_idle_response_run s Hr) as (He & Hl & Hmem & Hm).
  cbv zeta in *. rewrite (poll_attention_idle s Ha) in *.
  cbn [final events fst snd app] in *.
  repeat split; assumption.
Qed.

(** X7: unless the response bit is set with the slot empty, a pass makes
    exactly one timer request, as its last action: on TIMER_POLL if an
    interrupt has been seen, after MBOX_DEFAULT_POLL_MS otherwise. *)
Theorem poll_rearms_on_mode_cadence (s : mstate) :
  response_bit s = false \/ in_flight (mbox s) <> NULL ->
  let r := mbox_poll s in
  let cadence := if irq_ok (mbox s) then TIMER_POLL
                 else msecs_to_tb MBOX_DEFAULT_POLL_MS in
  filter is_schedule (events r) = [EvScheduleTimer cadence]
  /\ (exists evs, events r = evs ++ [EvScheduleTimer cadence])
  /\ t_expiry (poller (mbox (final r))) = Some cadence.
Proof.
  intros H. cbv zeta.
  destruct (poll_rearms s H) as (evs & He & Ht).
  pose proof (poll_schedule_events s) as Hs.
  assert (Hc : response_bit s && (in_flight (mbox s) =? NULL) = false).
  { destruct H as [H|H]; [rewrite H; reflexivity|].
    apply Z.eqb_neq in H. rewrite H. apply andb_false_r. }
  rewrite Hc in Hs.
  repeat split; [exact Hs | exists evs; exact He | exact Ht].
Qed.

(** X8: the interrupt handler, in every state: it leaves [irq_ok] set,
    runs a pass at once (its first action is the read of the host control
    register), and whatever timer request that pass makes is on
    TIMER_POLL, never on the millisecond interval. *)
Theorem irq_runs_a_pass_on_timer_poll (s : mstate) :
  let r := mbox_irq s in
  irq_ok (mbox (final r)) = true
  /\ (exists rest,
        events r =
          EvInb (u32 (base (mbox s) + u8 MBOX_HOST_CTRL))
                (lpc_inb (lpc s) (u32 (base (mbox s) + u8 MBOX_HOST_CTRL)))
          :: rest)
  /\ (forall d, In (EvScheduleTimer d) (events r) -> d = TIMER_POLL).
Proof.
  cbv zeta. unfold mbox_irq.
  set (s1 := final (with_mbox (set_irq_ok true) s)).
  assert (Hirq : irq_ok (mbox s1) = true) by reflexivity.
  assert (Ee : events ((with_mbox (set_irq_ok true);; mbox_poll) s)
               = events (mbox_poll s1))
    by (rewrite events_bind; reflexivity).
  assert (Ef : final ((with_mbox (set_irq_ok true);; mbox_poll) s)
               = final (mbox_poll s1))
    by (rewrite final_bind; reflexivity).
  rewrite Ee, Ef. repeat split.
  - set (R := fun m m' : mbox_t => irq_ok m' = irq_ok m).
    assert (K : keeps R mbox_poll).
    { apply keeps_poll; unfold R; try reflexivity; intros; congruence. }
    rewrite (K s1). exact Hirq.
  - unfold mbox_poll, mbox_poll_response. rewrite !events_bind.
    cbn [bmc_mbox_inb events snd app]. eexists. reflexivity.
  - intros d Hd.
    assert (Hin : In (EvScheduleTimer d)
                     (filter is_schedule (events (mbox_poll s1))))
      by (apply filter_In; split; [exact Hd | reflexivity]).
    rewrite poll_schedule_events, Hirq in Hin.
    destruct (response_bit s1 && (in_flight (mbox s1) =? NULL)).
    + destruct Hin.
    + destruct Hin as [Hin|[]]. cbn [poll_cadence] in Hin. congruence.
Qed.

(** X12: what a pass never does, in any state: it never changes the
    base, the callback, its context or the delivery mode; the slot is
    left as it was or emptied, never filled; and no byte of memory
    outside the in-flight message is written. *)
Theorem poll_frame (s : mstate) :
  let r := mbox_poll s in
  base (mbox (final r)) = base (mbox s)
  /\ callback (mbox (final r)) = callback (mbox s)
  /\ drv_data (mbox (final r)) = drv_data (mbox s)
  /\ irq_ok (mbox (final r)) = irq_ok (mbox s)
  /\ (in_flight (mbox (final r)) = in_flight (mbox s)
      \/ in_flight (mbox (final r)) = NULL)
  /\ (forall a,
        ~ (in_flight (mbox s) <= a
           < in_flight (mbox s) + BMC_MBOX_DATA_REGS) ->
        mem (final r) a = mem s a).
Proof.
  cbv zeta.
  set (R := fun m m' : mbox_t =>
              base m' = base m /\ callback m' = callback m
              /\ drv_data m' = drv_data m /\ irq_ok m' = irq_ok m).
  assert (K : keeps R mbox_poll).
  { apply keeps_poll; unfold R.
    - intros; repeat split.
    - intros a b c (H1 & H2 & H3 & H4) (H5 & H6 & H7 & H8).
      repeat split; congruence.
    - intros; repeat split.
    - intros; repeat split. }
  destruct (K s) as (K1 & K2 & K3 & K4).
  split; [exact K1|]. split; [exact K2|]. split; [exact K3|].
  split; [exact K4|].
  destruct (response_bit s) eqn:Hbit.
  - destruct (Z.eq_dec (in_flight (mbox s)) NULL) as [Hf|Hf].
    + rewrite (poll_returns_early s Hbit Hf).
      unfold final. cbn [fst snd bmc_mbox_outb mbox mem].
      split; [left; reflexivity | reflexivity].
    + destruct (poll_response_delivers s Hbit Hf)
        as (st & evs & E & Hm & _ & Hmem & _).
      destruct (poll_after_response s st evs E)
        as (st' & evs' & E' & _ & Hf' & _ & _ & Hmem' & _).
      rewrite E'. unfold final at 1 2 3. cbn [fst snd].
      split; [right; rewrite Hf', Hm; reflexivity|].
      intros a Ha. rewrite Hmem', Hmem.
      destruct (recv_message_run (in_flight (mbox s))
                  (final (bmc_mbox_outb MBOX_CTRL_INT_STATUS MBOX_HOST_CTRL s)))
        as (_ & _ & _ & _ & Hout).
      rewrite Hout by exact Ha. reflexivity.
  - destruct (poll_after_response s s _ (poll_response_idle s Hbit))
      as (st' & evs' & E' & _ & Hf' & _ & _ & Hmem' & _).
    rewrite E'. unfold final. cbn [fst snd].
    split; [left; exact Hf' | intros; now rewrite Hmem'].
Qed.

(** X14: a pass that finds only the attention bit set, on a driver that
    sits on the block: it clears the attention bit, makes no upcall,
    leaves the slot and memory alone, warns of a BMC reset exactly when
    bit 0 of the flag register is set, and re-arms the poller. *)
Theorem attention_only_pass (s : mstate) :
  io_base (lpc s) = base (mbox s) ->
  response_bit s = false ->
  attention_bit s = true ->
  let r := mbox_poll s in
  attention_bit (final r) = false
  /\ filter is_callback (events r) = []
  /\ in_flight (mbox (final r)) = in_flight (mbox s)
  /\ mem (final r) = mem s
  /\ (In (EvLog PR_WARNING "BMC reset detected" []) (events r)
      <-> Z.land (u8 (io_regs (lpc s) MBOX_FLAG_REG)) BMC_RESET <> 0)
  /\ filter is_schedule (events r)
     = [EvScheduleTimer (poll_cadence (irq_ok (mbox s)))].
Proof.
  intros Hat Hr Ha.
  destruct (poll_idle_response_run s Hr) as (He & Hl & Hmem & Hm).
  destruct (poll_attention_frame s)
    as (sa & ta & Ea & Hma & Hmema & Hioa & Hca & Hsa & _).
  destruct (poll_attention_services s Ha) as (_ & Hclr).
  destruct (poll_attention_events s Ha) as (Hev & Hd).
  cbv zeta in *. rewrite Ea in *. cbn [final events fst snd] in *.
  assert (Hact : lpc_inb (lpc sa) (u32 (base (mbox s) + u8 MBOX_FLAG_REG))
                 = u8 (io_regs (lpc s) MBOX_FLAG_REG)).
  { rewrite inb_attached by (try congruence; vm_compute; reflexivity).
    rewrite Hd, io_regs_outb_other;
      [reflexivity | exact Hat | vm_compute; discriminate]. }
  rewrite Hd in Hact.
  repeat split.
  - specialize (Hclr Hat). unfold attention_bit in *.
    cbn [bmc_mbox_inb result fst] in *.
    rewrite Hl, Hm. cbn [set_poller base]. exact Hclr.
  - rewrite He. cbn [filter is_callback]. rewrite filter_app, Hca.
    reflexivity.
  - rewrite Hm. cbn [set_poller in_flight]. rewrite Hma. reflexivity.
  - rewrite Hmem. exact Hmema.
  - rewrite He, Hev, Hact. intros Hin.
    destruct (Z.land (u8 (io_regs (lpc s) MBOX_FLAG_REG)) BMC_RESET =? 0)
      eqn:E0; [|apply Z.eqb_neq in E0; exact E0].
    exfalso. rewrite ?E0 in Hin. cbn [negb app In] in Hin.
    repeat (destruct Hin as [Hin|Hin]; [discriminate Hin|]).
    apply in_app_or in Hin. destruct Hin as [Hin|[Hin|[]]];
      [|discriminate Hin].
    destruct (negb (u8 (io_regs (lpc s) MBOX_FLAG_REG) =? 0));
      [destruct Hin as [Hin|[]]; discriminate Hin | destruct Hin].
  - rewrite He, Hev, Hact. intros Hne. apply Z.eqb_neq in Hne.
    rewrite Hne. cbn [negb app In]. auto 10.
  - rewrite He. cbn [filter is_schedule]. rewrite filter_app, Hsa, Hma.
    reflexivity.
Qed.

End Passes.

Section Bootstrap.
Context {P : Platform}.

Lemma mbox_init_refused env s :
  base (mbox s) = 0 ->
  init_inputs_ok env s = false ->
  exists lvl text,
     mbox_init env s =
       (tt, s, [EvLog PR_DEBUG "Attempting mbox init" []; EvLog lvl text []])
     /\ (dt_mbox env = None ->
         lvl = (if proc_gen_le_p8 env then PR_DEBUG else PR_ERR)
         /\ text = "No device tree entry"%string).
Proof.
  intros Hb Hok.
  assert (Hb' : (base (mbox s) =? 0) = true) by (apply Z.eqb_eq; exact Hb).
  unfold init_inputs_ok in Hok. unfold mbox_init.
  unfold bind at 1. cbn [gets]. rewrite Hb'. cbn [negb].
  unfold bind at 1. cbn [prlog emit].
  destruct (dt_mbox env) as [np|].
  - cbv zeta.
    destruct (dt_prop_get_u32_def (dt_interrupts np) 0 =? 0).
    { cbn [prlog emit app]. do 2 eexists.
      split; [reflexivity | discriminate]. }
    unfold bind at 1. cbn [lpc_present].
    destruct (bus_present (lpc s)); cbn [negb].
    2:{ cbn [prlog emit app]. do 2 eexists.
        split; [reflexivity | discriminate]. }
    destruct (dt_reg np) as [[c0 c1]|].
    2:{ cbn [prlog emit app]. do 2 eexists.
        split; [reflexivity | discriminate]. }
    cbn [negb andb] in Hok. rewrite Hok. cbn [negb prlog emit app].
    do 2 eexists. split; [reflexivity | discriminate].
  - cbn [prlog emit app]. do 2 eexists.
    split; [reflexivity | intros _; split; reflexivity].
Qed.

(** X9: an [mbox_init] that fails one of its checks (no device tree
    node, no interrupts property, LPC absent, no reg property, not an
    I/O address) hands back the machine unchanged, touches no port,
    and logs two lines, the attempt and the reason; for a missing node
    the reason is an error above P8 and a debug line up to P8. *)
Theorem failed_init_changes_nothing (env : boot_env) (s : mstate) :
  base (mbox s) = 0 ->
  init_inputs_ok env s = false ->
  (exists lvl text,
     mbox_init env s =
       (tt, s, [EvLog PR_DEBUG "Attempting mbox init" []; EvLog lvl text []]))
  /\ filter is_io (events (mbox_init env s)) = []
  /\ base (mbox (final (mbox_init env s))) = 0
  /\ (dt_mbox env = None ->
      events (mbox_init env s) =
        [EvLog PR_DEBUG "Attempting mbox init" [];
         EvLog (if proc_gen_le_p8 env then PR_DEBUG else PR_ERR)
               "No device tree entry" []]).
Proof.
  intros Hb Hok.
  destruct (mbox_init_refused env s Hb Hok) as (lvl & text & E & Hnone).
  rewrite E. unfold final, events. cbn [fst snd filter is_io].
  repeat split.
  - exists lvl, text. reflexivity.
  - exact Hb.
  - intros Hn. destruct (Hnone Hn) as [-> ->]. reflexivity.
Qed.

(** A successful [mbox_init], split at the hardware setup. *)
Lemma mbox_init_final env s :
  base (mbox s) = 0 ->
  init_inputs_ok env s = true ->
  let s1 := final (with_mbox (set_base (dt_io_base env)) s) in
  let s2 := final (mbox_init_hw s1) in
  final (mbox_init env s)
  = final (mbox_init_finish (dt_chip env) (dt_irq env) s2)
  /\ events (mbox_init env s)
     = EvLog PR_DEBUG "Attempting mbox init" []
       :: events (mbox_init_hw s1)
       ++ events (mbox_init_finish (dt_chip env) (dt_irq env) s2).
Proof.
  intros Hb Hok. apply Z.eqb_eq in Hb.
  unfold init_inputs_ok in Hok. unfold dt_io_base, dt_chip, dt_irq.
  destruct (dt_mbox env) as [np|] eqn:Enp; [|discriminate].
  apply andb_prop in Hok. destruct Hok as [Hok Hreg].
  apply andb_prop in Hok. destruct Hok as [Hirq Hpres].
  destruct (dt_reg np) as [[c0 c1]|] eqn:Ereg; [|discriminate].
  apply negb_true_iff in Hirq.
  set (irq := dt_prop_get_u32_def (dt_interrupts np) 0) in *.
  cbv zeta.
  set (s1 := final (with_mbox (set_base (u32 c1)) s)).
  set (s2 := final (mbox_init_hw s1)).
  split.
  - unfold mbox_init. rewrite Enp, Ereg. cbv zeta. fold irq.
    rewrite final_bind. cbn [gets result final fst snd]. rewrite Hb.
    cbn [negb].
    rewrite final_bind. cbn [prlog emit result final fst snd]. rewrite Hirq.
    rewrite final_bind. cbn [lpc_present result final fst snd].
    rewrite Hpres, Hreg. cbn [negb].
    rewrite final_bind. fold s1. rewrite final_bind. fold s2.
    change (result (mbox_init_hw s1)) with true. cbn [negb].
    reflexivity.
  - unfold mbox_init. rewrite Enp, Ereg. cbv zeta. fold irq.
    rewrite events_bind. cbn [gets result final events fst snd app].
    rewrite Hb. cbn [negb].
    rewrite events_bind. cbn [prlog emit result final events fst snd app].
    rewrite Hirq.
    rewrite events_bind. cbn [lpc_present result final events fst snd app].
    rewrite Hpres, Hreg. cbn [negb].
    rewrite events_bind. fold s1.
    change (events (with_mbox (set_base (u32 c1)) s)) with (@nil event).
    cbn [app]. rewrite events_bind. fold s2.
    change (result (mbox_init_hw s1)) with true. cbn [negb].
    reflexivity.
Qed.

Lemma mbox_init_finish_frame chip irq s :
  let r := mbox_init_finish chip irq s in
  lpc (final r) = lpc s
  /\ client_interrupts (final r) = LPC_IRQ irq
  /\ In (EvRegisterClient chip (LPC_IRQ irq)) (events r).
Proof.
  cbv zeta. repeat split.
  unfold mbox_init_finish, init_lock, init_timer.
  rewrite !events_bind. cbn. auto.
Qed.

Lemma mbox_init_finish_lock_free chip irq s :
  filter is_lock (events (mbox_init_finish chip irq s)) = [].
Proof.
  unfold mbox_init_finish, init_lock, init_timer.
  rewrite !events_bind. reflexivity.
Qed.

Lemma io_regs_outb_same d b v r :
  io_base d = b -> u8 r < MBOX_IO_COUNT ->
  io_regs (lpc_outb d v (u32 (b + u8 r))) (u8 r)
  = reg_write (u8 r) (io_regs d (u8 r)) v.
Proof.
  intros Hb Hr. rewrite outb_attached by assumption.
  cbn [io_regs]. apply upd_same.
Qed.

(** X10: a successful [mbox_init] writes four registers, in this order:
    0 to the first host interrupt-enable register, the attention bit to
    the second, the interrupt-status bit to the host control register
    and the mask bit to the BMC control register; it registers the LPC
    client for the interrupt of the device tree.  When the device tree
    names the base the block sits at, the block then has only the
    attention interrupt enabled, the response bit clear and the BMC
    interrupt masked, and every register below the BMC control register
    is as it was. *)
Theorem init_programs_the_block (env : boot_env) (s : mstate) :
  base (mbox s) = 0 ->
  init_inputs_ok env s = true ->
  let r := mbox_init env s in
  let b := dt_io_base env in
  filter is_io (events r) =
    [EvOutb (u8 0x00) (u32 (b + u8 MBOX_HOST_INT_EN_0));
     EvOutb (u8 MBOX_STATUS_ATTN) (u32 (b + u8 MBOX_HOST_INT_EN_1));
     EvOutb (u8 MBOX_CTRL_INT_STATUS) (u32 (b + u8 MBOX_HOST_CTRL));
     EvOutb (u8 MBOX_CTRL_INT_MASK) (u32 (b + u8 MBOX_BMC_CTRL))]
  /\ In (EvRegisterClient (dt_chip env) (LPC_IRQ (dt_irq env))) (events r)
  /\ client_interrupts (final r) = LPC_IRQ (dt_irq env)
  /\ (io_base (lpc s) = b ->
      u8 (io_regs (lpc (final r)) MBOX_HOST_INT_EN_0) = 0
      /\ u8 (io_regs (lpc (final r)) MBOX_HOST_INT_EN_1) = MBOX_STATUS_ATTN
      /\ u8 (io_regs (lpc (final r)) MBOX_BMC_CTRL) = MBOX_CTRL_INT_MASK
      /\ response_bit (final r) = false
      /\ (forall off, off < MBOX_BMC_CTRL ->
            io_regs (lpc (final r)) off = io_regs (lpc s) off)).
Proof.
  intros Hb Hok.
  destruct (mbox_init_succeeds env s Hb Hok) as (Hm & _ & _ & _ & Hio & _).
  destruct (mbox_init_final env s Hb Hok) as (Ef & Ee).
  cbv zeta in *.
  set (b := dt_io_base env) in *.
  set (s1 := final (with_mbox (set_base b) s)) in *.
  set (s2 := final (mbox_init_hw s1)) in *.
  destruct (mbox_init_finish_frame (dt_chip env) (dt_irq env) s2)
    as (Fl & Fc & Fin).
  assert (Hl : lpc (final (mbox_init env s)) = lpc s2)
    by (rewrite Ef; exact Fl).
  split; [exact Hio|]. split; [|split].
  - rewrite Ee. right. apply in_or_app. right. exact Fin.
  - rewrite Ef. exact Fc.
  - intros Hat.
    assert (Hl2 : lpc s2 =
      lpc_outb (lpc_outb (lpc_outb (lpc_outb (lpc s)
        (u8 0x00) (u32 (b + u8 MBOX_HOST_INT_EN_0)))
        (u8 MBOX_STATUS_ATTN) (u32 (b + u8 MBOX_HOST_INT_EN_1)))
        (u8 MBOX_CTRL_INT_STATUS) (u32 (b + u8 MBOX_HOST_CTRL)))
        (u8 MBOX_CTRL_INT_MASK) (u32 (b + u8 MBOX_BMC_CTRL)))
      by (unfold s2; rewrite (mbox_init_hw_eq s1); reflexivity).
    assert (Hbase : base (mbox (final (mbox_init env s))) = b)
      by (rewrite Hm; reflexivity).
    assert (Hat' : io_base (lpc (final (mbox_init env s)))
                   = base (mbox (final (mbox_init env s))))
      by (rewrite Hl, Hl2, !io_base_outb, Hbase; exact Hat).
    rewrite (response_bit_attached _ Hat'), Hl, Hl2.
    assert (Hother : forall d v r off,
              io_base d = b -> off <> u8 r ->
              io_regs (lpc_outb d v (u32 (b + u8 r))) off = io_regs d off)
      by (intros; apply io_regs_outb_other; assumption).
    assert (Hsame : forall d v r,
              io_base d = b -> u8 r < MBOX_IO_COUNT ->
              io_regs (lpc_outb d v (u32 (b + u8 r))) (u8 r)
              = reg_write (u8 r) (io_regs d (u8 r)) v)
      by (intros; apply io_regs_outb_same; assumption).
    set (d1 := lpc_outb (lpc s) (u8 0x00) (u32 (b + u8 MBOX_HOST_INT_EN_0))).
    set (d2 := lpc_outb d1 (u8 MBOX_STATUS_ATTN)
                 (u32 (b + u8 MBOX_HOST_INT_EN_1))).
    set (d3 := lpc_outb d2 (u8 MBOX_CTRL_INT_STATUS)
                 (u32 (b + u8 MBOX_HOST_CTRL))).
    assert (H1 : io_base d1 = b) by (unfold d1; rewrite io_base_outb; exact Hat).
    assert (H2 : io_base d2 = b) by (unfold d2; rewrite io_base_outb; exact H1).
    assert (H3 : io_base d3 = b) by (unfold d3; rewrite io_base_outb; exact H2).
    repeat split.
    + rewrite (Hother d3 _ MBOX_BMC_CTRL) by (exact H3 || (vm_compute; discriminate)).
      unfold d3.
      rewrite (Hother d2 _ MBOX_HOST_CTRL) by (exact H2 || (vm_compute; discriminate)).
      unfold d2.
      rewrite (Hother d1 _ MBOX_HOST_INT_EN_1) by (exact H1 || (vm_compute; discriminate)).
      unfold d1.
      change MBOX_HOST_INT_EN_0 with (u8 MBOX_HOST_INT_EN_0) at 1.
      rewrite (Hsame (lpc s) _ MBOX_HOST_INT_EN_0)
        by (exact Hat || (vm_compute; reflexivity)).
      reflexivity.
    + rewrite (Hother d3 _ MBOX_BMC_CTRL) by (exact H3 || (vm_compute; discriminate)).
      unfold d3.
      rewrite (Hother d2 _ MBOX_HOST_CTRL) by (exact H2 || (vm_compute; discriminate)).
      unfold d2.
      change MBOX_HOST_INT_EN_1 with (u8 MBOX_HOST_INT_EN_1) at 1.
      rewrite (Hsame d1 _ MBOX_HOST_INT_EN_1)
        by (exact H1 || (vm_compute; reflexivity)).
      reflexivity.
    + change MBOX_BMC_CTRL with (u8 MBOX_BMC_CTRL) at 1.
      rewrite (Hsame d3 _ MBOX_BMC_CTRL)
        by (exact H3 || (vm_compute; reflexivity)).
      reflexivity.
    + rewrite (Hother d3 _ MBOX_BMC_CTRL) by (exact H3 || (vm_compute; discriminate)).
      unfold d3.
      change MBOX_HOST_CTRL with (u8 MBOX_HOST_CTRL) at 1.
      rewrite (Hsame d2 _ MBOX_HOST_CTRL)
        by (exact H2 || (vm_compute; reflexivity)).
      change (u8 MBOX_HOST_CTRL) with MBOX_HOST_CTRL.
      rewrite w1c_clears_response. reflexivity.
    + intros off Hoff. unfold MBOX_BMC_CTRL in Hoff.
      rewrite (Hother d3 _ MBOX_BMC_CTRL)
        by (exact H3 || (change (u8 MBOX_BMC_CTRL) with 18; lia)).
      unfold d3.
      rewrite (Hother d2 _ MBOX_HOST_CTRL)
        by (exact H2 || (change (u8 MBOX_HOST_CTRL) with 19; lia)).
      unfold d2.
      rewrite (Hother d1 _ MBOX_HOST_INT_EN_1)
        by (exact H1 || (change (u8 MBOX_HOST_INT_EN_1) with 23; lia)).
      unfold d1.
      rewrite (Hother (lpc s) _ MBOX_HOST_INT_EN_0)
        by (exact Hat || (change (u8 MBOX_HOST_INT_EN_0) with 22; lia)).
      reflexivity.
Qed.

(** X11: a callback registered before a successful [mbox_init] is lost:
    the initialisation resets the callback and its context to NULL. *)
Theorem init_discards_registered_callback
    (env : boot_env) (s : mstate) (cb priv : Z) :
  base (mbox s) = 0 ->
  init_inputs_ok env s = true ->
  let s1 := final (bmc_mbox_register_callback cb priv s) in
  let s2 := final (mbox_init env s1) in
  callback (mbox s1) = cb
  /\ drv_data (mbox s1) = priv
  /\ callback (mbox s2) = NULL
  /\ drv_data (mbox s2) = NULL.
Proof.
  intros Hb Hok s1 s2.
  assert (Hb1 : base (mbox s1) = 0) by exact Hb.
  assert (Hok1 : init_inputs_ok env s1 = true) by exact Hok.
  destruct (mbox_init_succeeds env s1 Hb1 Hok1) as (Hm & _).
  fold s2 in Hm. rewrite Hm. repeat split.
Qed.

End Bootstrap.

Section Exchange.
Context {P : Platform}.

Lemma events_run_cons o ops s :
  events (run (o :: ops) s)
  = events (step o s) ++ events (run ops (final (step o s))).
Proof.
  cbn [run]. rewrite !events_bind. cbn [ret events snd].
  now rewrite app_nil_r.
Qed.

Lemma result_run_cons o ops s :
  result (run (o :: ops) s)
  = result (step o s) :: result (run ops (final (step o s))).
Proof. cbn [run]. rewrite !result_bind. reflexivity. Qed.

(** An expiry of the armed poller consumes the request and runs a pass. *)
Lemma timer_expire_armed s d :
  t_expiry (poller (mbox s)) = Some d ->
  let s' := final (with_mbox
                     (fun m => set_poller {| t_target := t_target (poller m);
                                             t_expiry := None |} m) s) in
  events (timer_expire s) = events (mbox_poll s')
  /\ final (timer_expire s) = final (mbox_poll s').
Proof.
  intros H. cbv zeta. unfold timer_expire. split.
  - mwalk. rewrite H. rewrite events_bind. reflexivity.
  - mwalk. rewrite H. rewrite final_bind. reflexivity.
Qed.

Lemma send_message_io_base p s :
  io_base (lpc (final (bmc_mbox_send_message p s))) = io_base (lpc s).
Proof.
  unfold bmc_mbox_send_message.
  mwalk. rewrite final_bind.
  assert (E0 : final ((if negb (bus_ok (lpc s))
                       then prlog PR_ERR "LPC isn't ok" [] else ret tt) s) = s)
    by (destruct (bus_ok (lpc s)); reflexivity).
  rewrite E0. rewrite !final_bind.
  cbn [prlog emit bmc_mbox_outb result final fst snd lpc].
  rewrite io_base_outb.
  apply (for_loop_inv (fun _ s' => io_base (lpc s') = io_base (lpc s))
           _ (Z.to_nat BMC_MBOX_DATA_REGS) 0 s).
  - reflexivity.
  - intros j s' _ Hs'. rewrite final_bind.
    cbn [load_u8 bmc_mbox_outb result final fst snd lpc].
    now rewrite io_base_outb.
Qed.

Lemma enqueue_io_base msg s :
  io_base (lpc (final (bmc_mbox_enqueue msg s))) = io_base (lpc s).
Proof.
  unfold bmc_mbox_enqueue. mwalk.
  destruct (base (mbox s) =? 0); [reflexivity|].
  do 2 mwalk.
  destruct (negb (in_flight (mbox s) =? NULL)); [reflexivity|].
  repeat mwalk.
  cbn [schedule_timer bind with_mbox emit final fst snd lpc].
  rewrite send_message_io_base. reflexivity.
Qed.

(** X13: a full exchange on an idle, initialised driver that sits on the
    block and has a callback registered.  The message is accepted; the
    BMC raises the response bit; the expiry of the poller the enqueue
    armed runs a pass that makes exactly one upcall, with this message,
    its bytes as received and the registered context, and frees the
    slot; the next message is then accepted at once. *)
Theorem exchange_frees_the_slot
    (s : mstate) (msg next : Z) (regs : Z -> Z) (ok present : bool) :
  base (mbox s) <> 0 ->
  io_base (lpc s) = base (mbox s) ->
  in_flight (mbox s) = NULL ->
  msg <> NULL ->
  callback (mbox s) <> NULL ->
  Z.land (u8 (regs MBOX_HOST_CTRL)) MBOX_CTRL_INT_STATUS <> 0 ->
  let r := run [Op_enqueue msg; Op_bmc regs ok present; Op_timer;
                Op_enqueue next] s in
  result r = [0; 0; 0; 0]
  /\ filter is_callback (events r) =
       [EvCallback (callback (mbox s)) msg (drv_data (mbox s))
          (read_bytes (mem (final r)) msg BMC_MBOX_DATA_REGS)]
  /\ in_flight (mbox (final r)) = next.
Proof.
  intros Hb Hat Hf Hmsg Hcb Hbit.
  (* the first enqueue *)
  set (s1 := final (bmc_mbox_enqueue msg s)).
  destruct (enqueue_accepted s msg Hb Hf) as (Hr1 & Hin1 & Hb1 & Ht1).
  destruct (enqueue_accepted_events s msg Hb Hf) as (He1 & _).
  cbv zeta in Hr1, Hin1, Hb1, Ht1, He1. fold s1 in Hin1, Hb1, Ht1.
  assert (Hc1 : filter is_callback (events (bmc_mbox_enqueue msg s)) = []).
  { rewrite He1, !filter_app. unfold data_writes.
    rewrite filter_map_none by reflexivity.
    destruct (bus_ok (lpc s)); reflexivity. }
  set (R := fun m m' : mbox_t =>
              callback m' = callback m /\ drv_data m' = drv_data m).
  assert (HR : forall m, keeps R (bmc_mbox_enqueue m)).
  { intros m. apply keeps_enqueue; unfold R.
    - intros; split; reflexivity.
    - intros a b c [H1 H2] [H3 H4]. split; congruence.
    - intros; split; reflexivity.
    - intros; split; reflexivity. }
  destruct (HR msg s) as [Hcb1 Hdd1]. fold s1 in Hcb1, Hdd1.
  pose proof (enqueue_io_base msg s) as Hio1. fold s1 in Hio1.
  (* the BMC answers *)
  set (s2 := final (bmc_acts regs ok present s1)).
  (* the poller expires *)
  set (s2' := final (with_mbox
                 (fun m => set_poller {| t_target := t_target (poller m);
                                         t_expiry := None |} m) s2)).
  destruct (timer_expire_armed s2 _ Ht1) as (Ee3 & Ef3). fold s2' in Ee3, Ef3.
  assert (Hat2 : io_base (lpc s2') = base (mbox s2'))
    by (cbn; rewrite Hio1, Hb1; exact Hat).
  assert (Hbit2 : response_bit s2' = true).
  { rewrite (response_bit_attached s2' Hat2). cbn [s2' s2 with_mbox bmc_acts
      final fst snd lpc io_regs].
    apply negb_true_iff, Z.eqb_neq. exact Hbit. }
  assert (Hf2 : in_flight (mbox s2') <> NULL) by (cbn; rewrite Hin1; exact Hmsg).
  destruct (poll_response_delivers s2' Hbit2 Hf2)
    as (st & evs & E & Hm & _ & Hmem & _ & Hc).
  destruct (poll_after_response s2' st evs E)
    as (s3 & evs' & E' & Hb3 & Hf3 & _ & _ & Hmem3 & _ & Hc' & _).
  assert (Hin2 : in_flight (mbox s2') = msg) by exact Hin1.
  assert (Hcb2 : callback (mbox s2') = callback (mbox s)) by exact Hcb1.
  assert (Hdd2 : drv_data (mbox s2') = drv_data (mbox s)) by exact Hdd1.
  rewrite Hin2, Hcb2, Hdd2 in Hc.
  apply Z.eqb_neq in Hcb. rewrite Hcb in Hc.
  rewrite Hin2 in Hmem.
  set (sb := final (bmc_mbox_recv_message msg
              (final (bmc_mbox_outb MBOX_CTRL_INT_STATUS MBOX_HOST_CTRL s2'))))
    in *.
  assert (Hs3 : final (timer_expire s2) = s3) by (rewrite Ef3, E'; reflexivity).
  assert (He3 : filter is_callback (events (timer_expire s2))
                = [EvCallback (callback (mbox s)) msg (drv_data (mbox s))
                     (read_bytes (mem s3) msg BMC_MBOX_DATA_REGS)]).
  { rewrite Ee3, E'. unfold events. cbn [snd].
    rewrite !filter_app, Hc, Hc', Hmem3, Hmem. reflexivity. }
  (* the second enqueue *)
  assert (Hb3' : base (mbox s3) <> 0).
  { rewrite Hb3, Hm. cbn [set_in_flight base].
    change (base (mbox s2')) with (base (mbox s1)). rewrite Hb1. exact Hb. }
  assert (Hf3' : in_flight (mbox s3) = NULL) by (rewrite Hf3, Hm; reflexivity).
  destruct (enqueue_accepted s3 next Hb3' Hf3') as (Hr4 & Hin4 & _).
  destruct (enqueue_accepted_events s3 next Hb3' Hf3') as (He4 & Hmem4).
  cbv zeta in Hr4, Hin4, He4, Hmem4.
  assert (Hc4 : filter is_callback (events (bmc_mbox_enqueue next s3)) = []).
  { rewrite He4, !filter_app. unfold data_writes.
    rewrite filter_map_none by reflexivity.
    destruct (bus_ok (lpc s3)); reflexivity. }
  (* the run *)
  cbv zeta.
  rewrite !result_run_cons, !events_run_cons, !final_run_cons.
  cbn [step run]. rewrite !final_then_ret.
  fold s1. fold s2. rewrite Hs3.
  repeat split.
  - rewrite !result_bind. cbn [ret result fst]. rewrite Hr1, Hr4. reflexivity.
  - rewrite !events_bind. cbn [ret events snd bmc_acts final fst].
    rewrite !app_nil_r, !filter_app, Hc1, He3, Hc4.
    cbn [ret final fst snd filter app]. rewrite Hmem4. reflexivity.
  - cbn [ret final fst snd]. exact Hin4.
Qed.

End Exchange.

(** ** These statements on the concrete machine *)

Lemma enqueue_accepted_sends_and_arms_witness :
  base (mbox ready_state) = 0x1000
  /\ in_flight
       (mbox (final (@bmc_mbox_enqueue skiboot_platform 0x2000 ready_state)))
     = 0x2000.
Proof.
  assert (H0 : base (mbox ready_state) = 0x1000) by (vm_compute; reflexivity).
  assert (Hb : base (mbox ready_state) <> 0) by (vm_compute; discriminate).
  assert (Hf : in_flight (mbox ready_state) = NULL)
    by (vm_compute; reflexivity).
  pose proof (@enqueue_accepted_sends_and_arms skiboot_platform ready_state
                0x2000 Hb Hf) as H.
  cbv zeta in H. destruct H as (_ & H & _).
  exact (conj H0 H).
Defined.

Lemma first_enqueue_wins_witness :
  in_flight
    (mbox (final (@run skiboot_platform
                    (map Op_enqueue [0x2000; 0x3000; 0x3100]) ready_state)))
  = 0x2000.
Proof.
  assert (Hb : base (mbox ready_state) <> 0) by (vm_compute; discriminate).
  assert (Hf : in_flight (mbox ready_state) = NULL)
    by (vm_compute; reflexivity).
  assert (Hm : 0x2000 <> NULL) by (vm_compute; discriminate).
  pose proof (@first_enqueue_wins skiboot_platform ready_state 0x2000
                [0x3000; 0x3100] Hb Hf Hm) as H.
  cbv zeta in H. destruct H as (_ & H).
  exact H.
Defined.

Lemma response_without_callback_is_dropped_witness :
  callback (mbox pending_no_callback) = NULL
  /\ filter is_callback
       (events (@mbox_poll skiboot_platform pending_no_callback)) = [].
Proof.
  assert (H1 : response_bit pending_no_callback = true)
    by (vm_compute; reflexivity).
  assert (H2 : in_flight (mbox pending_no_callback) <> NULL)
    by (vm_compute; discriminate).
  assert (H3 : callback (mbox pending_no_callback) = NULL)
    by (vm_compute; reflexivity).
  pose proof (@response_without_callback_is_dropped skiboot_platform
                pending_no_callback H1 H2 H3) as H.
  cbv zeta in H. destruct H as (H & _).
  exact (conj H3 H).
Defined.

Lemma unexpected_response_is_absorbed_witness :
  in_flight (mbox violation_state) = NULL
  /\ filter is_callback
       (events (@mbox_poll skiboot_platform violation_state)) = [].
Proof.
  assert (H1 : response_bit violation_state = true)
    by (vm_compute; reflexivity).
  assert (H2 : in_flight (mbox violation_state) = NULL)
    by (vm_compute; reflexivity).
  pose proof (@unexpected_response_is_absorbed skiboot_platform
                violation_state H1 H2) as H.
  cbv zeta in H. destruct H as (H & _).
  exact (conj H2 H).
Defined.

Lemma idle_pass_only_reads_witness :
  lpc (final (@mbox_poll skiboot_platform ready_state)) = lpc ready_state.
Proof.
  assert (H1 : response_bit ready_state = false) by (vm_compute; reflexivity).
  assert (H2 : attention_bit ready_state = false)
    by (vm_compute; reflexivity).
  pose proof (@idle_pass_only_reads skiboot_platform ready_state H1 H2) as H.
  cbv zeta in H. destruct H as (_ & H & _).
  exact H.
Defined.

Lemma poll_rearms_on_mode_cadence_witness :
  t_expiry (poller (mbox (final (@mbox_poll skiboot_platform pending_state))))
  = Some (if irq_ok (mbox pending_state)
          then @TIMER_POLL skiboot_platform
          else @msecs_to_tb skiboot_platform
                 (@MBOX_DEFAULT_POLL_MS skiboot_platform)).
Proof.
  assert (H1 : response_bit pending_state = false
               \/ in_flight (mbox pending_state) <> NULL)
    by (right; vm_compute; discriminate).
  pose proof (@poll_rearms_on_mode_cadence skiboot_platform pending_state H1)
    as H.
  cbv zeta in H. destruct H as (_ & _ & H).
  exact H.
Defined.

Lemma attention_only_pass_witness :
  attention_bit attention_state = true
  /\ attention_bit (final (@mbox_poll skiboot_platform attention_state))
     = false.
Proof.
  assert (H0 : io_base (lpc attention_state) = base (mbox attention_state))
    by (vm_compute; reflexivity).
  assert (H1 : response_bit attention_state = false)
    by (vm_compute; reflexivity).
  assert (H2 : attention_bit attention_state = true)
    by (vm_compute; reflexivity).
  pose proof (@attention_only_pass skiboot_platform attention_state H0 H1 H2)
    as H.
  cbv zeta in H. destruct H as (H & _).
  exact (conj H2 H).
Defined.

Lemma failed_init_changes_nothing_witness :
  base (mbox (final (@mbox_init skiboot_platform env_none (boot bus0 mem0))))
  = 0.
Proof.
  assert (H0 : base (mbox (boot bus0 mem0)) = 0) by reflexivity.
  assert (H1 : @init_inputs_ok skiboot_platform env_none (boot bus0 mem0)
               = false) by reflexivity.
  pose proof (@failed_init_changes_nothing skiboot_platform env_none
                (boot bus0 mem0) H0 H1) as H.
  destruct H as (_ & _ & H & _).
  exact H.
Defined.

Lemma init_programs_the_block_witness :
  client_interrupts
    (final (@mbox_init skiboot_platform env0 (boot bus0 mem0)))
  = @LPC_IRQ skiboot_platform (dt_irq env0).
Proof.
  assert (H0 : base (mbox (boot bus0 mem0)) = 0) by reflexivity.
  assert (H1 : @init_inputs_ok skiboot_platform env0 (boot bus0 mem0) = true)
    by (vm_compute; reflexivity).
  pose proof (@init_programs_the_block skiboot_platform env0
                (boot bus0 mem0) H0 H1) as H.
  cbv zeta in H. destruct H as (_ & _ & H & _).
  exact H.
Defined.

Lemma init_discards_registered_callback_witness :
  callback
    (mbox (final (@mbox_init skiboot_platform env0
                    (final (bmc_mbox_register_callback 0x4000 0x5000
                              (boot bus0 mem0))))))
  = NULL.
Proof.
  assert (H0 : base (mbox (boot bus0 mem0)) = 0) by reflexivity.
  assert (H1 : @init_inputs_ok skiboot_platform env0 (boot bus0 mem0) = true)
    by (vm_compute; reflexivity).
  pose proof (@init_discards_registered_callback skiboot_platform env0
                (boot bus0 mem0) 0x4000 0x5000 H0 H1) as H.
  cbv zeta in H. destruct H as (_ & _ & H & _).
  exact H.
Defined.

Lemma exchange_frees_the_slot_witness :
  in_flight
    (mbox (final (@run skiboot_platform
                    [Op_enqueue 0x2000; Op_bmc resp_regs true true; Op_timer;
                     Op_enqueue 0x3000] ready_state)))
  = 0x3000.
Proof.
  assert (H0 : base (mbox ready_state) <> 0) by (vm_compute; discriminate).
  assert (H1 : io_base (lpc ready_state) = base (mbox ready_state))
    by (vm_compute; reflexivity).
  assert (H2 : in_flight (mbox ready_state) = NULL)
    by (vm_compute; reflexivity).
  assert (H3 : 0x2000 <> NULL) by (vm_compute; discriminate).
  assert (H4 : callback (mbox ready_state) <> NULL)
    by (vm_compute; discriminate).
  assert (H5 : Z.land (u8 (resp_regs MBOX_HOST_CTRL)) MBOX_CTRL_INT_STATUS
               <> 0) by (vm_compute; discriminate).
  pose proof (@exchange_frees_the_slot skiboot_platform ready_state
                0x2000 0x3000 resp_regs true true H0 H1 H2 H3 H4 H5) as H.
  cbv zeta in H. destruct H as (_ & _ & H).
  exact H.
Defined.

Section Safety.
Context {P : Platform}.

(** A pass whose response check did not return, event by event. *)
Lemma poll_not_returned_run s st evs :
  mbox_poll_response s = (false, st, evs) ->
  events (mbox_poll s) =
    evs ++ events (mbox_poll_attention st)
    ++ [EvScheduleTimer
          (poll_cadence (irq_ok (mbox (final (mbox_poll_attention st)))))].
Proof.
  intros E. unfold mbox_poll.
  rewrite events_bind, E. cbn [result final events fst snd].
  do 2 mwalk. reflexivity.
Qed.

Lemma poll_response_run s :
  response_bit s = true /\ in_flight (mbox s) = NULL
  \/ exists st evs,
       mbox_poll_response s = (false, st, evs)
       /\ base (mbox st) = base (mbox s)
       /\ filter is_outb evs =
            (if response_bit s then [ack_response (base (mbox s))] else [])
       /\ exists pre,
            filter is_lock pre = []
            /\ (evs = pre \/ evs = pre ++ [EvLock; EvUnlock]).
Proof.
  destruct (response_bit s) eqn:Hbit.
  - destruct (Z.eq_dec (in_flight (mbox s)) NULL) as [Hf|Hf];
      [left; split; [reflexivity | exact Hf]|].
    right.
    destruct (poll_response_delivers s Hbit Hf) as (st & evs & E & Hm & _).
    pose proof (poll_response_delivers_events s Hbit Hf) as He.
    cbv zeta in He. rewrite E in He. cbn [events snd] in He.
    exists st, evs. split; [exact E|]. split; [rewrite Hm; reflexivity|].
    split.
    + rewrite He. cbn [app filter is_outb ack_response].
      rewrite !filter_app, filter_data_reads by reflexivity.
      destruct (callback (mbox s) =? NULL); reflexivity.
    + eexists. split; [|right; rewrite He; rewrite !app_assoc; reflexivity].
      cbn [app filter is_lock ack_response].
      rewrite !filter_app, filter_data_reads by reflexivity.
      destruct (callback (mbox s) =? NULL); reflexivity.
  - right. exists s. eexists.
    split; [apply poll_response_idle, Hbit|].
    split; [reflexivity|]. split; [reflexivity|].
    eexists. split; [|left; reflexivity]. reflexivity.
Qed.

Lemma poll_attention_run s :
  filter is_outb (events (mbox_poll_attention s)) =
    (if attention_bit s then [ack_attention (base (mbox s))] else [])
  /\ filter is_lock (events (mbox_poll_attention s)) = [].
Proof.
  destruct (attention_bit s) eqn:Ha.
  - destruct (poll_attention_events s Ha) as (He & _). cbv zeta in He.
    rewrite He. rewrite !filter_app.
    split;
      repeat match goal with |- context [if ?c then _ else _] =>
        destruct c end; reflexivity.
  - rewrite (poll_attention_idle s Ha). split; reflexivity.
Qed.

(** X16: the port writes of a pass, in every state: at most the
    write-back of the interrupt-status bit to the host control register
    (made exactly when the response bit was found set), followed by at
    most the write-back of the attention bit to the second status
    register.  A pass never writes a data register and never rings the
    doorbell. *)
Theorem poll_writes_only_acks (s : mstate) :
  exists attn : bool,
    filter is_outb (events (mbox_poll s)) =
      (if response_bit s then [ack_response (base (mbox s))] else [])
      ++ (if attn then [ack_attention (base (mbox s))] else []).
Proof.
  destruct (poll_response_run s)
    as [[Hbit Hf] | (st & evs & E & Hb & Ho & _)].
  - exists false. rewrite (poll_returns_early s Hbit Hf), Hbit. reflexivity.
  - destruct (poll_attention_run st) as (Ha & _).
    exists (attention_bit st).
    rewrite (poll_not_returned_run s st evs E), !filter_app, Ho, Ha, Hb.
    cbn [filter is_outb]. now rewrite app_nil_r.
Qed.

Lemma poll_lock_trace s : lock_trace false (events (mbox_poll s)) = Some false.
Proof.
  destruct (poll_response_run s)
    as [[Hbit Hf] | (st & evs & E & _ & _ & pre & Hpre & Hevs)].
  - rewrite (poll_returns_early s Hbit Hf). reflexivity.
  - destruct (poll_attention_run st) as (_ & Hl).
    rewrite (poll_not_returned_run s st evs E).
    assert (Hrest : forall t, lock_trace false (evs ++ t) = lock_trace false t).
    { intros t. destruct Hevs as [->| ->].
      - apply lock_trace_free_app, Hpre.
      - rewrite <- app_assoc. rewrite lock_trace_free_app by exact Hpre.
        reflexivity. }
    rewrite Hrest, lock_trace_free_app by exact Hl. reflexivity.
Qed.

Lemma enqueue_lock_trace msg s :
  lock_trace false (events (bmc_mbox_enqueue msg s)) = Some false.
Proof.
  destruct (Z.eq_dec (base (mbox s)) 0) as [Hb|Hb].
  - apply Z.eqb_eq in Hb. unfold bmc_mbox_enqueue. mwalk. rewrite Hb.
    reflexivity.
  - destruct (Z.eq_dec (in_flight (mbox s)) NULL) as [Hf|Hf].
    + destruct (enqueue_accepted_events s msg Hb Hf) as (He & _).
      cbv zeta in He. rewrite He. cbn [app lock_trace].
      apply lock_trace_free.
      rewrite !filter_app, filter_data_writes by reflexivity.
      destruct (bus_ok (lpc s)); reflexivity.
    + rewrite (enqueue_busy s msg Hb Hf). reflexivity.
Qed.

Lemma init_lock_trace env s :
  lock_trace false (events (mbox_init env s)) = Some false.
Proof.
  destruct (Z.eq_dec (base (mbox s)) 0) as [Hb|Hb].
  - destruct (init_inputs_ok env s) eqn:Hok.
    + destruct (mbox_init_final env s Hb Hok) as (_ & Ee). cbv zeta in Ee.
      rewrite Ee, mbox_init_hw_eq. cbn [events snd app lock_trace].
      apply lock_trace_free, mbox_init_finish_lock_free.
    + destruct (mbox_init_refused env s Hb Hok) as (lvl & text & E & _).
      rewrite E. reflexivity.
  - rewrite (mbox_init_duplicate env s Hb). reflexivity.
Qed.

Lemma step_lock_trace o s : lock_trace false (events (step o s)) = Some false.
Proof.
  destruct o as [env|cb priv|msg| | |regs ok present|addr val]; cbn [step].
  - rewrite events_bind. cbn [ret events snd]. rewrite app_nil_r.
    apply init_lock_trace.
  - reflexivity.
  - apply enqueue_lock_trace.
  - rewrite events_bind. cbn [ret events snd]. rewrite app_nil_r.
    destruct (t_expiry (poller (mbox s))) as [d|] eqn:Ht.
    + destruct (timer_expire_armed s d Ht) as (Ee & _). rewrite Ee.
      apply poll_lock_trace.
    + unfold timer_expire. mwalk. rewrite Ht. reflexivity.
  - rewrite events_bind. cbn [ret events snd]. rewrite app_nil_r.
    unfold mbox_irq. rewrite events_bind.
    change (events (with_mbox (set_irq_ok true) s)) with (@nil event).
    apply poll_lock_trace.
  - reflexivity.
  - reflexivity.
Qed.

(** X17: the lock discipline of the driver, along every run from every
    state: a lock is never taken twice nor released when free, it is
    released by the end of every call, and no port is read or written and
    no upcall is made while it is held. *)
Theorem lock_is_never_held_across_io (ops : list op) (s : mstate) :
  lock_trace false (events (run ops s)) = Some false.
Proof.
  revert s. induction ops as [|o ops IH]; intros s.
  - reflexivity.
  - rewrite events_run_cons, lock_trace_app, step_lock_trace. apply IH.
Qed.

Lemma step_keeps_base o s :
  base (mbox s) <> 0 -> base (mbox (final (step o s))) = base (mbox s).
Proof.
  intros Hb.
  set (R := fun m m' : mbox_t => base m' = base m).
  assert (Rr : forall m, R m m) by reflexivity.
  assert (Rt : forall a b c, R a b -> R b c -> R a c)
    by (unfold R; intros; congruence).
  assert (Rf : forall m v, v = NULL \/ base m <> 0 -> R m (set_in_flight v m))
    by reflexivity.
  assert (Rp : forall m t, R m (set_poller t m)) by reflexivity.
  destruct o as [env|cb priv|msg| | |regs ok present|addr val];
    cbn [step]; rewrite ?final_then_ret.
  - rewrite (mbox_init_duplicate env s Hb). reflexivity.
  - reflexivity.
  - apply (keeps_enqueue R Rr Rt Rf Rp msg s).
  - apply (keeps_timer_expire R Rr Rt Rf Rp s).
  - unfold mbox_irq. rewrite final_bind.
    exact (keeps_poll R Rr Rt Rf Rp (final (with_mbox (set_irq_ok true) s))).
  - reflexivity.
  - reflexivity.
Qed.

(** X18: once [mbox.base] is set, nothing changes it: along every run
    (further initialisations, enqueues, passes, interrupts, callback
    registrations, activity of the BMC) the base stays what it was. *)
Theorem base_is_set_once (ops : list op) (s : mstate) :
  base (mbox s) <> 0 ->
  base (mbox (final (run ops s))) = base (mbox s).
Proof.
  revert s. induction ops as [|o ops IH]; intros s Hb.
  - reflexivity.
  - rewrite final_run_cons.
    pose proof (step_keeps_base o s Hb) as H1.
    rewrite IH by (rewrite H1; exact Hb). exact H1.
Qed.

End Safety.

Lemma base_is_set_once_witness :
  base (mbox (final (@run skiboot_platform
                       [Op_init env_base0; Op_enqueue 0x2000; Op_irq;
                        Op_init env_none; Op_timer] ready_state)))
  = base (mbox ready_state).
Proof.
  assert (H0 : base (mbox ready_state) <> 0) by (vm_compute; discriminate).
  exact (@base_is_set_once skiboot_platform
           [Op_init env_base0; Op_enqueue 0x2000; Op_irq;
            Op_init env_none; Op_timer] ready_state H0).
Defined.
